(** * promo_ui: the Flask campaign-brief application of [app.py]

    A shallow embedding of [app.py] and the properties of its request
    handlers, content generators and video task client.

    Conventions of the embedding.
    - A Python [str] is a Rocq [string] holding its UTF-8 bytes.  The
      source contains two characters outside ASCII, U+00A0 and U+2011;
      they are written out byte by byte below ([nbsp], [nbhyphen]).
    - A Python [int] is a [Z].
    - A [dict] written as a literal in the source is an association list
      in the order of the literal; the Flask session and [os.environ],
      which the code only reads and updates by key, are [gmap]s.
    - The session is threaded explicitly: a view takes the session and the
      request and returns the response with the session it leaves.
    - A call that can raise returns an [option] or a sum: [None] is the
      ValueError of a conversion between integers and their decimal text,
      which the interpreter refuses beyond its digit limit in both
      directions.  An exception that a view does not catch is the response
      [Abort 500]. *)

From Stdlib Require Import ZArith QArith Ascii String.
From stdpp Require Import gmap strings list pretty.

Set Warnings "-register-all".
#[local] Arguments String.append !_ _ / : simpl nomatch.
#[local] Arguments String.eqb : simpl never.
Open Scope Z_scope.

(** ** Python values and built-ins *)

Module Py.

(** A float: not-a-number, an infinity, or a finite value, which is a
    rational number. *)
Inductive pyfloat := FNan | FInf | FFinite (q : Q).

(** The objects that [request.get_json] can return and that the video
    client handles. *)
Inductive value :=
| VNone
| VBool (b : bool)
| VInt (z : Z)
| VFloat (f : pyfloat)
| VStr (s : string)
| VList (l : list value)
| VDict (d : list (string * value)).

Definition dict (V : Type) : Type := list (string * V).

(** [d.get(k)]: the first binding of [k]. *)
Fixpoint dict_get {V : Type} (k : string) (d : dict V) : option V :=
  match d with
  | [] => None
  | (k', v) :: d' => if String.eqb k' k then Some v else dict_get k d'
  end.

Definition keys {V : Type} (d : dict V) : list string := d.*1.

(** Truth value of a string or of a missing entry ([None]). *)
Definition truthy (o : option string) : bool :=
  match o with
  | Some s => negb (String.eqb s "")
  | None => false
  end.

(** Truth value of an arbitrary object. *)
Definition truthy_value (v : value) : bool :=
  match v with
  | VNone => false
  | VBool b => b
  | VInt z => negb (z =? 0)
  | VFloat (FFinite q) => negb (Qnum q =? 0)
  | VFloat _ => true
  | VStr s => negb (String.eqb s "")
  | VList l => negb (bool_decide (length l = 0%nat))
  | VDict d => negb (bool_decide (length d = 0%nat))
  end.

(** *** Substrings *)

Fixpoint contains (needle hay : string) : bool :=
  String.prefix needle hay ||
  match hay with
  | EmptyString => false
  | String _ hay' => contains needle hay'
  end.

(** [x in s] for strings, as a proposition. *)
Definition Contains (needle hay : string) : Prop :=
  exists pre post, hay = pre +:+ needle +:+ post.

(** *** Characters and white space *)

Definition bytes_of (s : string) : list N :=
  N_of_ascii <$> list_ascii_of_string s.

Definition string_of_bytes (l : list N) : string :=
  string_of_list_ascii (ascii_of_N <$> l).

(** UTF-8 encoding of a code point below U+10000. *)
Definition utf8 (cp : N) : list N :=
  if (cp <? 128)%N then [cp]
  else if (cp <? 2048)%N then
    [(192 + cp / 64)%N; (128 + cp mod 64)%N]
  else
    [(224 + cp / 4096)%N; (128 + (cp / 64) mod 64)%N; (128 + cp mod 64)%N].

(** The code points for which [str.isspace] holds. *)
Definition unicode_whitespace : list N :=
  [0x09; 0x0a; 0x0b; 0x0c; 0x0d; 0x1c; 0x1d; 0x1e; 0x1f; 0x20; 0x85; 0xa0;
   0x1680; 0x2000; 0x2001; 0x2002; 0x2003; 0x2004; 0x2005; 0x2006; 0x2007;
   0x2008; 0x2009; 0x200a; 0x2028; 0x2029; 0x202f; 0x205f; 0x3000]%N.

Fixpoint drop_prefix (p l : list N) : option (list N) :=
  match p, l with
  | [], _ => Some l
  | a :: p', b :: l' => if (a =? b)%N then drop_prefix p' l' else None
  | _ :: _, [] => None
  end.

(** Removes one leading character among the encodings [encs]. *)
Fixpoint drop_one (encs : list (list N)) (l : list N) : option (list N) :=
  match encs with
  | [] => None
  | e :: encs' =>
      match drop_prefix e l with
      | Some l' => Some l'
      | None => drop_one encs' l
      end
  end.

Fixpoint drop_while (fuel : nat) (encs : list (list N)) (l : list N) : list N :=
  match fuel with
  | O => l
  | S fuel' =>
      match drop_one encs l with
      | Some l' => drop_while fuel' encs l'
      | None => l
      end
  end.

Definition lstrip_bytes (ws : list N) (l : list N) : list N :=
  drop_while (length l) (utf8 <$> ws) l.

Definition rstrip_bytes (ws : list N) (l : list N) : list N :=
  rev (drop_while (length l) ((fun cp => rev (utf8 cp)) <$> ws) (rev l)).

(** [s.strip()] *)
Definition strip (s : string) : string :=
  string_of_bytes (rstrip_bytes unicode_whitespace
                     (lstrip_bytes unicode_whitespace (bytes_of s))).

(** *** [int(s)] for a string

    Follows CPython.  The string is first brought to ASCII, code point by
    code point: white space outside ASCII becomes a space, a decimal digit
    of another script becomes the ASCII digit of its value, and any other
    character outside ASCII becomes a question mark.  Then
    [PyLong_FromString] reads, in base 10, leading white space, an optional
    sign, digits with single underscores between them, trailing white
    space, and nothing else.  [None] is [ValueError].

    Two things belong to the interpreter, not to the program:
    [decimal_digit], the decimal value that its Unicode database gives to
    a code point outside ASCII, and [max_str_digits], its limit on the
    number of digits ([sys.int_max_str_digits]; 0 and interpreters without
    the limit: unlimited), which applies above 640 digits only. *)

Record interpreter := {
  decimal_digit : N -> option N;
  max_str_digits : nat;
}.

(** The code points of a string, from its UTF-8 bytes; a byte sequence
    that is not UTF-8 is no Python string and gives U+FFFD. *)
Fixpoint code_points (l : list N) : list N :=
  match l with
  | [] => []
  | b0 :: l1 =>
      if (b0 <? 0x80)%N then b0 :: code_points l1
      else if (b0 <? 0xc0)%N then 0xfffd%N :: code_points l1
      else
        match l1 with
        | [] => [0xfffd%N]
        | b1 :: l2 =>
            if (b0 <? 0xe0)%N then
              ((b0 - 0xc0) * 64 + (b1 - 0x80))%N :: code_points l2
            else
              match l2 with
              | [] => [0xfffd%N]
              | b2 :: l3 =>
                  if (b0 <? 0xf0)%N then
                    ((b0 - 0xe0) * 4096 + (b1 - 0x80) * 64 + (b2 - 0x80))%N
                      :: code_points l3
                  else
                    match l3 with
                    | [] => [0xfffd%N]
                    | b3 :: l4 =>
                        ((b0 - 0xf0) * 262144 + (b1 - 0x80) * 4096
                         + (b2 - 0x80) * 64 + (b3 - 0x80))%N
                          :: code_points l4
                    end
              end
        end
  end.

Definition to_ascii_decimal (py : interpreter) (cp : N) : N :=
  if (cp <? 128)%N then cp
  else if bool_decide (cp ∈ unicode_whitespace) then 32%N
  else
    match decimal_digit py cp with
    | Some d => if (d <? 10)%N then (48 + d)%N else 63%N
    | None => 63%N
    end.

(** The C locale's [isspace]. *)
Definition is_space (c : N) : bool :=
  ((9 <=? c)%N && (c <=? 13)%N) || (c =? 32)%N.

Fixpoint skip_spaces (l : list N) : list N :=
  match l with
  | c :: l' => if is_space c then skip_spaces l' else l
  | [] => []
  end.

Definition is_digit (c : N) : bool := (48 <=? c)%N && (c <=? 57)%N.

Fixpoint scan_digits (prev_underscore : bool) (acc : Z) (count : nat)
    (l : list N) : option (Z * nat * list N) :=
  match l with
  | c :: l' =>
      if is_digit c then
        scan_digits false (10 * acc + Z.of_N (c - 48)) (S count) l'
      else if (c =? 95)%N then
        if prev_underscore then None else scan_digits true acc count l'
      else if prev_underscore then None else Some (acc, count, l)
  | [] => if prev_underscore then None else Some (acc, count, [])
  end.

Definition too_many_digits (py : interpreter) (count : nat) : bool :=
  bool_decide (640 < count)%nat && bool_decide (0 < max_str_digits py)%nat
  && bool_decide (max_str_digits py < count)%nat.

Definition int_of_str (py : interpreter) (s : string) : option Z :=
  let l := to_ascii_decimal py <$> code_points (bytes_of s) in
  let l := skip_spaces l in
  let '(sign, l) :=
    match l with
    | 43%N :: l' => (1, l')
    | 45%N :: l' => (-1, l')
    | _ => (1, l)
    end in
  match l with
  | 95%N :: _ => None
  | _ =>
      match scan_digits false 0 0 l with
      | Some (v, count, rest) =>
          if bool_decide (count = 0%nat) then None
          else if too_many_digits py count then None
          else
            match skip_spaces rest with
            | [] => Some (sign * v)
            | _ :: _ => None
            end
      | None => None
      end
  end.

Inductive exn := ValueError | TypeError | OverflowError | AttributeError
               | KeyError | RuntimeError (msg : string) | RequestException.

(** [v == s] for a string literal [s]. *)
Definition value_is_str (v : value) (s : string) : bool :=
  match v with
  | VStr s' => String.eqb s' s
  | _ => false
  end.

(** [int(v)] for an object. *)
Definition int_of_value (py : interpreter) (v : value) : exn + Z :=
  match v with
  | VInt z => inr z
  | VBool b => inr (if b then 1 else 0)
  | VFloat (FFinite q) => inr (Z.quot (Qnum q) (Z.pos (Qden q)))
  | VFloat FInf => inl OverflowError
  | VFloat FNan => inl ValueError
  | VStr s =>
      match int_of_str py s with
      | Some z => inr z
      | None => inl ValueError
      end
  | VNone | VList _ | VDict _ => inl TypeError
  end.

(** The decimal text of an integer: a minus sign for a negative one, and
    its digits without leading zeros. *)
Definition str_of_int (n : Z) : string := pretty n.

(** The number of decimal digits of an integer. *)
Definition digits_of (n : Z) : nat := String.length (str_of_int (Z.abs n)).

(** [str(n)] and [f"{n}"] for an integer.  The interpreter's digit limit
    applies to this direction as well: an integer with more digits than
    the limit is not formatted, the conversion raises ValueError ([None]). *)
Definition format_int (py : interpreter) (n : Z) : option string :=
  if too_many_digits py (digits_of n) then None else Some (str_of_int n).

(** [json.loads] on a JSON document, which is given by the object that it
    denotes (an object with one binding for each key: of several members
    with the same key the last one counts).  The parser converts every
    integer literal with [int], so that a document holding an integer with
    more digits than the limit is refused with ValueError ([None]). *)
Fixpoint json_ints_ok (py : interpreter) (doc : value) : bool :=
  match doc with
  | VInt z => negb (too_many_digits py (digits_of z))
  | VList l => forallb (json_ints_ok py) l
  | VDict d =>
      forallb (fun kv => match kv with (_, v) => json_ints_ok py v end) d
  | _ => true
  end.

Definition json_loads (py : interpreter) (doc : value) : option value :=
  if json_ints_ok py doc then Some doc else None.

End Py.

Import Py.


(** ** The application *)

(** U+00A0 NO-BREAK SPACE and U+2011 NON-BREAKING HYPHEN, in UTF-8. *)
Definition nbsp : string := String "194" (String "160" "").
Definition nbhyphen : string := String "226" (String "128" (String "145" "")).

(** *** Helper functions: the content generator *)

Definition generate_directions (product : string) : dict string :=
  let safe :=
    "Focus on the core benefits of " +:+ product +:+
    " and highlight its reliability " +:+
    "and ease of use.  Use straightforward visuals, clear messaging, and a " +:+
    "friendly tone that reinforces trust." in
  let innovative :=
    "Emphasise how " +:+ product +:+
    " pushes boundaries by showcasing its unique " +:+
    "features or cutting" +:+ nbhyphen +:+
    "edge technology.  Incorporate dynamic camera " +:+
    "movements, modern graphic overlays, and a forward" +:+ nbhyphen +:+
    "thinking narrative." in
  let experimental :=
    "Take a bold, artistic approach to expressing the essence of " +:+
    product +:+ ".  " +:+
    "Use abstract storytelling, unexpected metaphors, or surreal visuals " +:+
    "that evoke emotion and curiosity." in
  [("safe", safe); ("innovative", innovative); ("experimental", experimental)].

(** The inner function of [generate_storyboards]; the variables it closes
    over, [product] and [segment_length], are its first arguments.  In the
    description of the third scene only the first literal is an f-string:
    the second keeps its braces as they are written.  The three
    descriptions format the same integer [segment_length]: when the
    interpreter refuses to format it, the first of them raises ValueError
    and the function returns nothing ([None]). *)
Definition build_scenes (py : interpreter) (product : string)
    (segment_length : Z) (adjective : string) : option (list (dict string)) :=
  seg ← format_int py segment_length;
  Some
  [ [("description",
      "Scene" +:+ nbsp +:+ "1 (" +:+ seg +:+
      "s): Introduce " +:+ product +:+ " in a " +:+ adjective +:+ " way, " +:+
      "highlighting its main value proposition.");
     ("prompt",
      "An opening shot that showcases " +:+ product +:+ " with " +:+
      adjective +:+ " tone; " +:+
      "smooth camera movement and soft lighting.")];
    [("description",
      "Scene" +:+ nbsp +:+ "2 (" +:+ seg +:+
      "s): Expand on how " +:+ product +:+ " benefits the target " +:+
      "audience, incorporating a " +:+ adjective +:+ " visual metaphor.");
     ("prompt",
      "A middle shot using a " +:+ adjective +:+ " metaphor to illustrate " +:+
      product +:+ "'s " +:+
      "advantage; dynamic transitions and engaging colours.")];
    [("description",
      "Scene" +:+ nbsp +:+ "3 (" +:+ seg +:+
      "s): Conclude by motivating viewers to act, " +:+
      "leaving them with a memorable {adjective} impression of {product}.");
     ("prompt",
      "A closing shot that leaves a strong " +:+ adjective +:+
      " impression of " +:+ product +:+ "; " +:+
      "dramatic composition and inspiring text overlay.")] ].

(** [None] is the ValueError of [build_scenes]. *)
Definition generate_storyboards (py : interpreter) (product : string)
    (num_videos duration : Z) : option (dict (list (dict string))) :=
  let segment_length := Z.max 1 (duration / 3) in
  safe ← build_scenes py product segment_length "safe and trustworthy";
  innovative ← build_scenes py product segment_length "innovative and modern";
  experimental ←
    build_scenes py product segment_length "experimental and artistic";
  Some [("safe", safe); ("innovative", innovative);
        ("experimental", experimental)].

(** *** Effects

    What a call does to the outside world, in order: requests sent, time
    slept, warnings logged. *)
Inductive io_event :=
(** [requests.post(url, headers=headers, json=payload)] *)
| HttpPost (url : string) (headers : dict string) (payload : dict value)
(** [requests.get(f"{url}{task_id}", headers=headers)] *)
| HttpGet (url : string) (task_id : value) (headers : dict string)
(** [time.sleep(seconds)] *)
| Sleep (seconds : nat)
| LogWarning (msg : string).

(** *** HTTP *)

Record request := {
  (** [request.method], in upper case *)
  method : string;
  (** [request.form]: the fields in the order sent; [get] takes the first. *)
  form : dict string;
  (** the body as a JSON document; [None] when it is not JSON text *)
  json_body : option value;
}.

(** What a template is rendered with. *)
Inductive context :=
| LoginCtx (error : option string)
| IndexCtx
| ResultsCtx (product : string) (num_videos duration : Z)
    (directions : dict string) (storyboards : dict (list (dict string))).

Inductive response :=
| Redirect (location : string)
| Render (template : string) (ctx : context)
| Json (status : nat) (body : value)
(** Flask's own answer to OPTIONS: status 200 and the set of the methods
    that the rule allows *)
| Options (allow : gset string)
(** an HTTP error: an exception that leaves the view, or that the routing
    raises before any view runs, answered by Flask with [status] *)
| Abort (status : nat).

(** The views and the rules their [@app.route] decorators register. *)
Inductive endpoint :=
  ep_login | ep_dashboard | ep_logout | ep_api_generate_video.

Definition rule (e : endpoint) : string * list string :=
  match e with
  | ep_login => ("/", ["GET"; "POST"])
  | ep_dashboard => ("/dashboard", ["GET"; "POST"])
  | ep_logout => ("/logout", ["GET"])
  | ep_api_generate_video => ("/api/generate_video", ["POST"])
  end.

Definition url_for (e : endpoint) : string := (rule e).1.

(** The methods for which a rule runs its view: those of the decorator, and
    HEAD wherever GET is one of them. *)
Definition view_methods (e : endpoint) : list string :=
  let methods := (rule e).2 in
  if bool_decide ("GET" ∈ methods) then "HEAD" :: methods else methods.

(** *** Configuration *)

Definition USERS : dict string :=
  [("demo", "password123"); ("admin", "admin")].

Section App.

(** [os.environ] when the module is imported, and the interpreter that
    runs it. *)
Variable environ : gmap string string.
Variable py : interpreter.

Definition secret_key : string :=
  default "change-me" (environ !! "FLASK_SECRET_KEY").

Definition HAILUO_API_KEY : option string := environ !! "HAILUO_API_KEY".

(** The module's top-level statements: what they do to the outside world
    and the configuration they leave. *)
Definition startup : list io_event * (string * dict string * option string) :=
  ([], (secret_key, USERS, HAILUO_API_KEY)).

(** *** The video task client *)

Definition call_hailuo_api (prompt : value) (duration : Z)
    (image end_image : option string) (resolution : string)
    : list io_event * dict value :=
  if negb (truthy HAILUO_API_KEY) then
    ([], [("task_id", VNone); ("video_url", VNone);
          ("message",
           VStr "Hailuo API key not configured; skipping real API call.")])
  else
    ([], [("task_id", VNone); ("video_url", VNone);
          ("message",
           VStr "Networking disabled; returning placeholder response.")]).

(** *** Routes *)

Definition view : Type :=
  gmap string string -> request -> response * gmap string string.

Definition login : view := fun session req =>
  if truthy (session !! "username") then
    (Redirect (url_for ep_dashboard), session)
  else if String.eqb (method req) "POST" then
    let username := dict_get "username" (form req) in
    let password := dict_get "password" (form req) in
    let error := Some "Invalid username or password" in
    match username with
    | Some u =>
        (* [username in USERS and USERS[username] == password] *)
        match dict_get u USERS with
        | Some p =>
            if bool_decide (Some p = password) then
              (Redirect (url_for ep_dashboard), <["username" := u]> session)
            else (Render "login.html" (LoginCtx error), session)
        | None => (Render "login.html" (LoginCtx error), session)
        end
    | None => (Render "login.html" (LoginCtx error), session)
    end
  else (Render "login.html" (LoginCtx None), session).

(** [int(request.form.get(field, fallback))] under [except ValueError]. *)
Definition form_int (req : request) (field fallback : string) (dflt : Z) : Z :=
  match int_of_str py
          (default fallback (dict_get field (form req))) with
  | Some n => n
  | None => dflt
  end.

Definition dashboard : view := fun session req =>
  if negb (truthy (session !! "username")) then
    (Redirect (url_for ep_login), session)
  else if String.eqb (method req) "POST" then
    let product := strip (default "" (dict_get "product" (form req))) in
    let num_videos := form_int req "num_videos" "1" 1 in
    let duration := form_int req "duration" "6" 6 in
    let num_videos := Z.max 1 (Z.min num_videos 10) in
    let duration := Z.max 2 (Z.min duration 30) in
    let directions := generate_directions product in
    match generate_storyboards py product num_videos duration with
    | Some storyboards =>
        (Render "results.html"
           (ResultsCtx product num_videos duration directions storyboards),
         session)
    | None => (Abort 500, session)
    end
  else (Render "index.html" IndexCtx, session).

Definition logout : view := fun session req =>
  (Redirect (url_for ep_login), delete "username" session).

(** [request.get_json(force=True)]: the body loaded as JSON whatever its
    content type.  [None] when the body is not JSON text or [json.loads]
    refuses it; Flask answers that with status 400. *)
Definition get_json (req : request) : option value :=
  json_body req ≫= json_loads py.

Definition api_generate_video : view := fun session req =>
  if negb (truthy (session !! "username")) then
    (Json 401 (VDict [("error", VStr "unauthenticated")]), session)
  else
    match get_json req with
    | None => (Abort 400, session)
    | Some (VDict data) =>
        let prompt := default VNone (dict_get "prompt" data) in
        match int_of_value py
                (default (VInt 6) (dict_get "duration" data)) with
        | inr duration =>
            (Json 200 (VDict (call_hailuo_api prompt duration None None "768P").2),
             session)
        | inl _ => (Abort 500, session)
        end
    | Some _ => (Abort 500, session)
    end.

(** [app.view_functions]: the function that [@app.route] binds to an
    endpoint.  Flask calls it from [dispatch_request], for the methods of
    the rule only. *)
Definition view_function (e : endpoint) : view :=
  match e with
  | ep_login => login
  | ep_dashboard => dashboard
  | ep_logout => logout
  | ep_api_generate_video => api_generate_video
  end.

(** What Flask does with a request whose URL is that of [e].  The view runs
    when the method is one of [view_methods e]; OPTIONS is answered by
    Flask itself; for every other method the routing raises
    MethodNotAllowed, status 405.  In the last two cases no view runs and
    the session stays as it is. *)
Definition dispatch_request (e : endpoint) : view := fun session req =>
  if bool_decide (method req ∈ view_methods e) then
    view_function e session req
  else if String.eqb (method req) "OPTIONS" then
    (Options (list_to_set ("OPTIONS" :: view_methods e)), session)
  else (Abort 405, session).

(** A client's requests, served one after the other: the session it is
    left with. *)
Fixpoint serve (session : gmap string string)
    (reqs : list (endpoint * request)) : gmap string string :=
  match reqs with
  | [] => session
  | (e, req) :: reqs' => serve (dispatch_request e session req).2 reqs'
  end.

End App.

(** *** The disabled block of the video task client

    Between its two [return] statements [call_hailuo_api] holds the live
    client as a string literal, which is never run.  [call_hailuo_api_enabled]
    is the function with that text as code.  The service is given by its
    answers: [post_reply] to the job creation request and [poll_reply i] to
    the [i]-th status request, each the JSON object received, or [None]
    when [requests] raises (transport error, error status, body that is
    not JSON or that [json] does not load). *)

Section Enabled.

Variable environ : gmap string string.
Variable post_reply : option value.
Variable poll_reply : nat -> option value.

Definition create_url : string :=
  "https://api.novita.ai/v3/async/minimax-hailuo-02".
Definition result_url : string :=
  "https://api.novita.ai/v3/async/task-result?task_id=".

(** [videos[0].get("video_url") if videos else None] *)
Definition first_video_url (videos : value) : exn + value :=
  if negb (truthy_value videos) then inr VNone
  else
    match videos with
    | VList (VDict video :: _) => inr (default VNone (dict_get "video_url" video))
    | VList _ | VStr _ => inl AttributeError
    | VDict _ => inl KeyError
    | _ => inl TypeError
    end.

(** One turn of the polling loop after its request was answered with
    [data]: [Some] when the turn leaves the function, [None] when it goes
    on to sleep. *)
Definition poll_once (task_id : value) (reply : option value)
    : option (exn + dict value) :=
  match reply with
  | None => Some (inl RequestException)
  | Some (VDict data) =>
      match default (VDict []) (dict_get "task" data) with
      | VDict task =>
          let status := default VNone (dict_get "status" task) in
          if value_is_str status "TASK_STATUS_SUCCEED" then
            let videos := default (VList []) (dict_get "videos" data) in
            match first_video_url videos with
            | inr video_url =>
                Some (inr [("task_id", task_id); ("video_url", video_url)])
            | inl e => Some (inl e)
            end
          else if value_is_str status "TASK_STATUS_FAILED" then
            Some (inr [("task_id", task_id); ("video_url", VNone);
                       ("message", VStr "Generation failed")])
          else None
      | _ => Some (inl AttributeError)
      end
  | Some _ => Some (inl AttributeError)
  end.

(** [for _ in range(attempts)], at turn [i], and the [return] after it. *)
Fixpoint poll (headers : dict string) (task_id : value) (attempts i : nat)
    : list io_event * (exn + dict value) :=
  match attempts with
  | O =>
      ([], inr [("task_id", task_id); ("video_url", VNone);
                ("message", VStr "Timed out waiting for video")])
  | S attempts' =>
      match poll_once task_id (poll_reply i) with
      | Some r => ([HttpGet result_url task_id headers], r)
      | None =>
          let '(events, r) := poll headers task_id attempts' (S i) in
          (HttpGet result_url task_id headers :: Sleep 1 :: events, r)
      end
  end.

Definition call_hailuo_api_enabled (prompt : value) (duration : Z)
    (image end_image : option string) (resolution : string)
    : list io_event * (exn + dict value) :=
  if negb (truthy (HAILUO_API_KEY environ)) then
    ([], inr [("task_id", VNone); ("video_url", VNone);
              ("message",
               VStr "Hailuo API key not configured; skipping real API call.")])
  else
    let headers :=
      [("Authorization", "Bearer " +:+ default "None" (HAILUO_API_KEY environ));
       ("Content-Type", "application/json")] in
    let payload :=
      [("prompt", prompt); ("duration", VInt duration);
       ("resolution", VStr resolution);
       ("enable_prompt_expansion", VBool true)] in
    let payload :=
      if truthy image then payload ++ [("image", VStr (default "" image))]
      else payload in
    let payload :=
      if truthy end_image
      then payload ++ [("end_image", VStr (default "" end_image))]
      else payload in
    let submit := HttpPost create_url headers payload in
    match post_reply with
    | None => ([submit], inl RequestException)
    | Some (VDict response) =>
        let task_id := default VNone (dict_get "task_id" response) in
        if negb (truthy_value task_id) then
          ([submit],
           inl (RuntimeError "Failed to get task_id from Hailuo API response"))
        else
          let '(events, r) := poll headers task_id 60 0 in
          (submit :: events, r)
    | Some _ => ([submit], inl AttributeError)
    end.

End Enabled.

(** *** Reading a response *)

Definition rendered_num_videos (r : response) : option Z :=
  match r with
  | Render "results.html" (ResultsCtx _ n _ _ _) => Some n
  | _ => None
  end.

Definition rendered_duration (r : response) : option Z :=
  match r with
  | Render "results.html" (ResultsCtx _ _ d _ _) => Some d
  | _ => None
  end.

(** The description or prompt of scene [i] (from 0) of a direction. *)
Definition scene_text (sb : dict (list (dict string)))
    (direction : string) (i : nat) (part : string) : option string :=
  scenes ← dict_get direction sb; scene ← scenes !! i; dict_get part scene.

(** *** The specification's wording, to compare the code with *)

(** The two provisioned credentials. *)
Definition provisioned_pair (username password : option string) : Prop :=
  (username = Some "demo" /\ password = Some "password123")
  \/ (username = Some "admin" /\ password = Some "admin").

#[local] Instance provisioned_pair_dec u p : Decision (provisioned_pair u p).
Proof. unfold provisioned_pair. apply _. Defined.

(** What the specification says of a login POST: a provisioned pair puts
    the username into the session and redirects to the dashboard, any other
    pair renders the login page with the error and leaves the session. *)
Definition login_post_outcome (session : gmap string string) (req : request)
    : Prop :=
  let username := dict_get "username" (form req) in
  let password := dict_get "password" (form req) in
  (provisioned_pair username password ->
     exists u, username = Some u
       /\ login session req
          = (Redirect "/dashboard", <["username" := u]> session))
  /\ (~ provisioned_pair username password ->
       login session req
       = (Render "login.html"
            (LoginCtx (Some "Invalid username or password")), session)).

(** A numeric form field: parsed as an integer, [dflt] when that fails,
    clamped to [[lo, hi]]. *)
Definition spec_clamped_field (py : interpreter) (field : option string)
    (dflt lo hi : Z) : Z :=
  let n := default dflt (field ≫= int_of_str py) in
  if n <? lo then lo else if hi <? n then hi else n.

(** The session is absent or carries one of the provisioned usernames. *)
Definition session_ok (session : gmap string string) : Prop :=
  session !! "username" = None
  \/ session !! "username" = Some "demo"
  \/ session !! "username" = Some "admin".

(** What the specification says of [generate_storyboards]: the call returns
    a mapping with exactly the keys safe, innovative and experimental, each
    with a list of exactly 3 scenes, and the call with another number of
    videos returns the same mapping. *)
Definition storyboards_as_specified (py : interpreter) (product : string)
    (n m duration : Z) : Prop :=
  exists sb,
    generate_storyboards py product n duration = Some sb
    /\ keys sb = ["safe"; "innovative"; "experimental"]
    /\ (forall k scenes, dict_get k sb = Some scenes -> length scenes = 3%nat)
    /\ generate_storyboards py product m duration = Some sb.

(** An interpreter for the examples: the default digit limit, and the
    Arabic-Indic and the fullwidth digits. *)
Definition example_interpreter : interpreter :=
  {| decimal_digit cp :=
       if ((0x660 <=? cp) && (cp <=? 0x669))%N then Some (cp - 0x660)%N
       else if ((0xff10 <=? cp) && (cp <=? 0xff19))%N then Some (cp - 0xff10)%N
       else None;
     max_str_digits := 4300 |}.

Definition post (fields : dict string) : request :=
  {| method := "POST"; form := fields; json_body := None |}.

(** What the specification says of a missing session secret: the default
    is used and a warning is given. *)
Definition secret_fallback_warns (environ : gmap string string) : Prop :=
  secret_key environ = "change-me"
  /\ exists msg, LogWarning msg ∈ (startup environ).1.

(** What the specification says of the client when a credential is
    configured: the call submits the job creation request. *)
Definition submits_job {A : Type} (run : list io_event * A) : Prop :=
  exists headers payload, HttpPost create_url headers payload ∈ run.1.

Definition is_get (e : io_event) : bool :=
  match e with
  | HttpGet _ _ _ => true
  | _ => false
  end.

Definition placeholder (msg : string) : dict value :=
  [("task_id", VNone); ("video_url", VNone); ("message", VStr msg)].

(** A service for the examples: it accepts the job as task [t-1] and
    reports it as processing [pending] times before it succeeds. *)
Definition accepting_service : option value :=
  Some (VDict [("task_id", VStr "t-1")]).

Definition service_after (pending : nat) (i : nat) : option value :=
  if bool_decide (i < pending)%nat then
    Some (VDict [("task", VDict [("status", VStr "TASK_STATUS_PROCESSING")])])
  else
    Some (VDict [("task", VDict [("status", VStr "TASK_STATUS_SUCCEED")]);
                 ("videos", VList [VDict [("video_url", VStr "https://cdn/v.mp4")]])]).

(** *** Further readings of the code *)

(** The ASCII form of a string that [int_of_str] parses. *)
Definition ascii_form (py : interpreter) (s : string) : list N :=
  to_ascii_decimal py <$> code_points (bytes_of s).

(** The seconds slept in a run. *)
Fixpoint sleep_total (events : list io_event) : nat :=
  match events with
  | [] => 0
  | Sleep seconds :: events' => seconds + sleep_total events'
  | _ :: events' => sleep_total events'
  end.

(** A login request that carries a provisioned pair. *)
Definition successful_login (r : endpoint * request) : Prop :=
  r.1 = ep_login /\ method r.2 = "POST"
  /\ provisioned_pair (dict_get "username" (form r.2))
       (dict_get "password" (form r.2)).

(** A request that logs out: one to [/logout] with a method for which the
    view runs. *)
Definition served_logout (r : endpoint * request) : Prop :=
  r.1 = ep_logout /\ method r.2 ∈ view_methods ep_logout.

(** An answer to a status request that reports the task as succeeded. *)
Definition reports_success (reply : option value) : Prop :=
  exists data task,
    reply = Some (VDict data)
    /\ dict_get "task" data = Some (VDict task)
    /\ dict_get "status" task = Some (VStr "TASK_STATUS_SUCCEED").

Definition rendered_product (r : response) : option string :=
  match r with
  | Render "results.html" (ResultsCtx product _ _ _ _) => Some product
  | _ => None
  end.

(** ** Properties *)

(** *** Strings *)

Lemma prefix_spec needle hay :
  String.prefix needle hay = true <-> exists post, hay = needle +:+ post.
Proof.
  revert hay. induction needle as [|c needle IH]; intros hay.
  - split; [exists hay; reflexivity | intros _; destruct hay; reflexivity].
  - destruct hay as [|c' hay]; simpl.
    + split; [discriminate | intros [post H]; discriminate].
    + destruct (Ascii.ascii_dec c c') as [->|Hne].
      * rewrite IH. split; intros [post H]; exists post; simpl in *; congruence.
      * split; [discriminate | intros [post H]; simpl in H; congruence].
Qed.

Lemma contains_spec needle hay :
  contains needle hay = true <-> Contains needle hay.
Proof.
  unfold Contains. induction hay as [|c hay IH].
  - change (contains needle "") with (String.prefix needle "" || false).
    rewrite orb_false_r, prefix_spec. split.
    + intros [post H]. exists "", post. exact H.
    + intros [[|c pre] [post H]]; simpl in H; [eauto | discriminate].
  - change (contains needle (String c hay))
      with (String.prefix needle (String c hay) || contains needle hay).
    rewrite orb_true_iff, prefix_spec, IH. split.
    + intros [[post H]|(pre & post & H)].
      * exists "", post. exact H.
      * exists (String c pre), post. simpl. congruence.
    + intros ([|c' pre] & post & H); simpl in H.
      * left; eauto.
      * right. exists pre, post. congruence.
Qed.

Lemma not_contains needle hay :
  contains needle hay = false -> ~ Contains needle hay.
Proof. intros H1 H2%contains_spec. congruence. Qed.

Lemma append_assoc (a b c : string) : (a +:+ b) +:+ c = a +:+ (b +:+ c).
Proof. induction a as [|x a IH]; simpl; congruence. Qed.

Lemma Contains_here needle post : Contains needle (needle +:+ post).
Proof. exists "", post. reflexivity. Qed.

Lemma Contains_app_r pre hay needle :
  Contains needle hay -> Contains needle (pre +:+ hay).
Proof.
  intros (a & b & ->). exists (pre +:+ a), b. symmetry. apply append_assoc.
Qed.

Lemma Contains_refl s : Contains s s.
Proof.
  exists "", "". simpl. induction s as [|c s IH]; simpl; congruence.
Qed.

Lemma Contains_cons c hay needle :
  Contains needle hay -> Contains needle (String c hay).
Proof. apply (Contains_app_r (String c "")). Qed.

(** Finds [needle] in a right-nested concatenation. *)
Ltac solve_contains :=
  repeat (apply Contains_here || apply Contains_refl
          || apply Contains_app_r || apply Contains_cons).

(** *** The built-ins on examples *)

Example int_of_str_examples :
  (int_of_str example_interpreter) <$>
    ["99"; "0"; " 7 "; "+5"; "-5"; "- 5"; "+-5"; ""; "  "; "1_0"; "_1";
     "1_"; "1__0"; "0x10"; "007"; "1.5"; "abc"; "7 8"]
  = [Some 99; Some 0; Some 7; Some 5; Some (-5); None; None; None; None;
     Some 10; None; None; None; None; Some 7; None; None; None].
Proof. vm_compute. reflexivity. Qed.

(** White space and digits outside ASCII: U+00A0 around 12, and the
    Arabic-Indic digits three and nine. *)
Example int_of_str_unicode_examples :
  int_of_str example_interpreter (nbsp +:+ "12" +:+ nbsp) = Some 12
  /\ int_of_str example_interpreter
       (string_of_bytes [0xd9; 0xa3; 0xd9; 0xa9]%N) = Some 39
  /\ int_of_str {| decimal_digit := fun _ => None; max_str_digits := 0 |}
       (string_of_bytes [0xd9; 0xa3; 0xd9; 0xa9]%N) = None.
Proof. repeat split; vm_compute; reflexivity. Qed.

Example strip_examples :
  strip <$> ["  Solar  kettle "; "x" +:+ nbsp; ""; "   "]
  = ["Solar  kettle"; "x"; ""; ""].
Proof. vm_compute. reflexivity. Qed.

(** *** Formatting an integer *)

(** The digits that [pretty_N_go] writes in front of [s]: their number. *)
Lemma pretty_N_go_length x :
  exists k : nat,
    (x = 0%N -> k = 0%nat)
    /\ ((0 < x)%N -> (0 < k)%nat /\ 10 ^ (Z.of_nat k - 1) <= Z.of_N x)
    /\ Z.of_N x < 10 ^ Z.of_nat k
    /\ forall s,
        String.length (pretty_N_go x s) = (k + String.length s)%nat.
Proof.
  induction (N.lt_wf_0 x) as [x _ IH].
  destruct (decide (x = 0%N)) as [->|Hx].
  - exists 0%nat. split; [done|]. split; [lia|]. split; [done|].
    intros s. by rewrite pretty_N_go_0.
  - destruct (IH (x `div` 10)%N) as (k & Hk0 & Hk & Hub & Hlen).
    { apply N.div_lt; lia. }
    exists (S k). split; [lia|]. split; [|split].
    2:{ rewrite Nat2Z.inj_succ, Z.pow_succ_r by lia.
        rewrite N2Z.inj_div in Hub. change (Z.of_N 10) with 10 in Hub.
        pose proof (Z.div_mod (Z.of_N x) 10).
        pose proof (Z.mod_pos_bound (Z.of_N x) 10). lia. }
    + intros _. split; [lia|].
      replace (Z.of_nat (S k) - 1) with (Z.of_nat k) by lia.
      destruct (N.eq_0_gt_0_cases (x `div` 10)) as [Hz|Hd].
      * rewrite (Hk0 Hz). change (Z.of_nat 0) with 0.
        rewrite Z.pow_0_r. lia.
      * destruct (Hk Hd) as [Hkpos Hle].
        replace (Z.of_nat k) with (Z.of_nat k - 1 + 1) by lia.
        rewrite Z.pow_add_r by lia.
        pose proof (N.Div0.mul_div_le x 10). lia.
    + intros s. rewrite pretty_N_go_step by lia. rewrite Hlen. simpl. lia.
Qed.

(** An integer other than 0 with [k] digits lies between [10 ^ (k - 1)] and
    [10 ^ k]. *)
Lemma digits_of_bounds n :
  n <> 0 ->
  10 ^ (Z.of_nat (digits_of n) - 1) <= Z.abs n < 10 ^ Z.of_nat (digits_of n).
Proof.
  intros Hn.
  assert (exists p, Z.abs n = Z.pos p) as [p Hp].
  { destruct n as [|p|p]; [done|by exists p..]. }
  unfold digits_of. rewrite Hp.
  assert (str_of_int (Z.pos p) = pretty_N_go (N.pos p) "") as ->.
  { unfold str_of_int, pretty, pretty_Z, pretty, pretty_positive, pretty,
      pretty_N. by rewrite decide_False by done. }
  destruct (pretty_N_go_length (N.pos p)) as (k & _ & Hk & Hub & Hlen).
  destruct Hk as [_ Hlb]; [lia|].
  rewrite Hlen. simpl String.length. rewrite Nat.add_0_r.
  change (Z.of_N (N.pos p)) with (Z.pos p) in *. lia.
Qed.

(** The digit limit in terms of the integer: it is refused when a limit is
    set and its absolute value reaches [10 ^ max(640, limit)]. *)
Lemma too_many_digits_of py n :
  too_many_digits py (digits_of n) = true
  <-> (0 < max_str_digits py)%nat
      /\ 10 ^ Z.max 640 (Z.of_nat (max_str_digits py)) <= Z.abs n.
Proof.
  unfold too_many_digits. rewrite !andb_true_iff, !bool_decide_eq_true.
  assert (0 < 10 ^ Z.max 640 (Z.of_nat (max_str_digits py))) as Hpos
    by (apply Z.pow_pos_nonneg; lia).
  destruct (decide (n = 0)) as [->|Hn].
  - change (digits_of 0) with 1%nat. simpl Z.abs. lia.
  - pose proof (digits_of_bounds n Hn) as [Hlb Hub]. split.
    + intros [[H640 Hmax] Hlim]. split; [done|].
      etrans; [|exact Hlb]. apply Z.pow_le_mono_r; lia.
    + intros [Hmax Hle].
      assert (Z.max 640 (Z.of_nat (max_str_digits py))
              < Z.of_nat (digits_of n)).
      { apply (Z.pow_lt_mono_r_iff 10); lia. }
      lia.
Qed.

Lemma format_int_Some py n s : format_int py n = Some s -> s = str_of_int n.
Proof. unfold format_int. case_match; [discriminate|]. by intros [= <-]. Qed.

Lemma format_int_None py n :
  format_int py n = None
  <-> (0 < max_str_digits py)%nat
      /\ 10 ^ Z.max 640 (Z.of_nat (max_str_digits py)) <= Z.abs n.
Proof.
  rewrite <- too_many_digits_of. unfold format_int.
  destruct (too_many_digits py (digits_of n)); split; done.
Qed.

(** The limit of [example_interpreter], and an integer that reaches it. *)
Lemma example_interpreter_limit :
  (0 < max_str_digits example_interpreter)%nat
  /\ 10 ^ Z.max 640 (Z.of_nat (max_str_digits example_interpreter))
     <= Z.abs (10 ^ 4300)
  /\ Z.max 1 (3 * 10 ^ 4300 / 3) = 10 ^ 4300.
Proof.
  change (Z.of_nat (max_str_digits example_interpreter)) with 4300.
  change (Z.max 640 4300) with 4300.
  rewrite Z.mul_comm, Z.div_mul by done.
  assert (0 < 10 ^ 4300) as Hpos by (by apply Z.pow_pos_nonneg).
  revert Hpos. generalize (10 ^ 4300). intros big Hpos.
  split; [simpl; lia|]. lia.
Qed.

Lemma format_int_small py n :
  Z.abs n < 10 ^ 640 \/ max_str_digits py = 0%nat ->
  format_int py n = Some (str_of_int n).
Proof.
  intros Hlim. destruct (format_int py n) as [s|] eqn:Hf.
  - by apply format_int_Some in Hf as ->.
  - apply format_int_None in Hf as [Hmax Hle].
    assert (10 ^ 640 <= 10 ^ Z.max 640 (Z.of_nat (max_str_digits py)))
      by (apply Z.pow_le_mono_r; lia).
    lia.
Qed.

(** *** The content generator *)

(** C6.  [generate_directions] depends on the product alone and returns
    exactly the keys safe, innovative and experimental, in this order, each
    with its own paragraph, which has the product inside; the empty product
    is accepted and gives the three sentences with nothing inserted. *)
Theorem generate_directions_shape (product : string) :
  generate_directions product =
    [("safe",
      "Focus on the core benefits of " +:+ product +:+
      " and highlight its reliability and ease of use.  Use straightforward visuals, clear messaging, and a friendly tone that reinforces trust.");
     ("innovative",
      "Emphasise how " +:+ product +:+
      " pushes boundaries by showcasing its unique features or cutting"
      +:+ nbhyphen +:+
      "edge technology.  Incorporate dynamic camera movements, modern graphic overlays, and a forward"
      +:+ nbhyphen +:+ "thinking narrative.");
     ("experimental",
      "Take a bold, artistic approach to expressing the essence of " +:+
      product +:+
      ".  Use abstract storytelling, unexpected metaphors, or surreal visuals that evoke emotion and curiosity.")]
  /\ keys (generate_directions product) = ["safe"; "innovative"; "experimental"]
  /\ NoDup (keys (generate_directions product))
  /\ (forall k text, dict_get k (generate_directions product) = Some text ->
        Contains product text)
  /\ (forall k k' text text',
        dict_get k (generate_directions product) = Some text ->
        dict_get k' (generate_directions product) = Some text' ->
        text = text' -> k = k')
  /\ generate_directions "" =
       [("safe",
         "Focus on the core benefits of  and highlight its reliability and ease of use.  Use straightforward visuals, clear messaging, and a friendly tone that reinforces trust.");
        ("innovative",
         "Emphasise how  pushes boundaries by showcasing its unique features or cutting"
         +:+ nbhyphen +:+
         "edge technology.  Incorporate dynamic camera movements, modern graphic overlays, and a forward"
         +:+ nbhyphen +:+ "thinking narrative.");
        ("experimental",
         "Take a bold, artistic approach to expressing the essence of .  Use abstract storytelling, unexpected metaphors, or surreal visuals that evoke emotion and curiosity.")].
Proof.
  split; [reflexivity|]. split; [reflexivity|].
  split; [compute_done|].
  split; [|split; [|vm_compute; reflexivity]].
  - intros k text. unfold generate_directions, dict_get.
    repeat case_match; intros [= <-]; solve_contains.
  - intros k k' text text'. unfold generate_directions, dict_get.
    repeat case_match; intros [= <-] [= <-];
      repeat match goal with
             | H : String.eqb _ _ = true |- _ => apply String.eqb_eq in H
             end; subst; try reflexivity; discriminate.
Qed.

(** What [build_scenes] returns, and when. *)
Lemma build_scenes_Some py product seg adjective scenes :
  build_scenes py product seg adjective = Some scenes ->
  format_int py seg = Some (str_of_int seg)
  /\ forall py', format_int py' seg = Some (str_of_int seg) ->
       build_scenes py' product seg adjective = Some scenes.
Proof.
  unfold build_scenes. destruct (format_int py seg) as [s|] eqn:Hf;
    [|discriminate].
  apply format_int_Some in Hf as ->. simpl. intros [= <-].
  split; [done|]. by intros py' ->.
Qed.

Lemma build_scenes_None py product seg adjective :
  build_scenes py product seg adjective = None <-> format_int py seg = None.
Proof.
  unfold build_scenes. by destruct (format_int py seg) as [s|]; simpl.
Qed.

Lemma generate_storyboards_None py product n duration :
  generate_storyboards py product n duration = None
  <-> format_int py (Z.max 1 (duration / 3)) = None.
Proof.
  unfold generate_storyboards. cbv zeta.
  set (seg := Z.max 1 (duration / 3)). split.
  - destruct (format_int py seg) as [s|] eqn:Hf; [|done].
    unfold build_scenes. rewrite Hf. simpl. discriminate.
  - intros Hf.
    by rewrite (proj2 (build_scenes_None py product seg
                         "safe and trustworthy") Hf).
Qed.

Lemma generate_storyboards_Some py product n duration sb :
  generate_storyboards py product n duration = Some sb ->
  exists safe innovative experimental,
    sb = [("safe", safe); ("innovative", innovative);
          ("experimental", experimental)]
    /\ build_scenes py product (Z.max 1 (duration / 3))
         "safe and trustworthy" = Some safe
    /\ build_scenes py product (Z.max 1 (duration / 3))
         "innovative and modern" = Some innovative
    /\ build_scenes py product (Z.max 1 (duration / 3))
         "experimental and artistic" = Some experimental.
Proof.
  unfold generate_storyboards. cbv zeta.
  destruct (build_scenes py product _ "safe and trustworthy")
    as [safe|]; [|discriminate].
  destruct (build_scenes py product _ "innovative and modern")
    as [innovative|]; [|discriminate].
  destruct (build_scenes py product _ "experimental and artistic")
    as [experimental|]; [|discriminate].
  simpl. intros [= <-]. by exists safe, innovative, experimental.
Qed.

(** The function returns for every duration whose segment length the
    interpreter formats: for all durations below [3 * 10 ^ 640], those that
    the dashboard passes among them, and for all durations when the
    interpreter has no limit. *)
Lemma generate_storyboards_returns py product n duration :
  duration < 3 * 10 ^ 640 \/ max_str_digits py = 0%nat ->
  is_Some (generate_storyboards py product n duration).
Proof.
  intros Hlim.
  destruct (generate_storyboards py product n duration) as [sb|] eqn:Hg;
    [done|].
  apply generate_storyboards_None in Hg.
  rewrite format_int_small in Hg; [discriminate|].
  destruct Hlim as [Hd|Hmax]; [left|by right].
  assert (0 < 10 ^ 640) by (by apply Z.pow_pos_nonneg).
  assert (duration / 3 < 10 ^ 640) by (apply Z.div_lt_upper_bound; lia).
  lia.
Qed.

Lemma build_scenes_shape py product seg adjective scenes :
  build_scenes py product seg adjective = Some scenes ->
  length scenes = 3%nat
  /\ Forall (fun scene => keys scene = ["description"; "prompt"]) scenes.
Proof.
  unfold build_scenes. destruct (format_int py seg) as [s|]; [|discriminate].
  simpl. intros [= <-]. split; [reflexivity|]. repeat constructor.
Qed.

(** C4, as stated, at a duration of [3 * 10 ^ 4300] seconds on an
    interpreter with the default digit limit: the segment length has 4301
    digits, the f-string of the first description raises ValueError, and
    no mapping is returned. *)
Lemma generate_storyboards_overlong_duration :
  generate_storyboards example_interpreter "Widget" 1 (3 * 10 ^ 4300) = None
  /\ ~ storyboards_as_specified example_interpreter "Widget" 1 10
         (3 * 10 ^ 4300).
Proof.
  assert (generate_storyboards example_interpreter "Widget" 1 (3 * 10 ^ 4300)
          = None) as Hnone.
  { apply generate_storyboards_None, format_int_None.
    destruct example_interpreter_limit as (Hmax & Hlim & ->).
    split; [exact Hmax | exact Hlim]. }
  split; [exact Hnone|]. intros (sb & Hsb & _). congruence.
Qed.

(** C4, amended.  [generate_storyboards] does not look at the number of
    videos: two calls that differ in it alone return the same storyboards
    or raise alike.  The call raises (ValueError) exactly when the
    interpreter limits the digits of an integer and the segment length
    [max(1, duration // 3)] reaches [10 ^ max(640, limit)]; it returns for
    every duration below [3 * 10 ^ 640], and for every duration when there
    is no limit.  What it returns has exactly the keys safe, innovative and
    experimental, each with a list of exactly 3 scenes, every scene a
    description and a prompt. *)
Theorem generate_storyboards_shape (py : interpreter) (product : string)
    (n m duration : Z) :
  generate_storyboards py product n duration
    = generate_storyboards py product m duration
  /\ (generate_storyboards py product n duration = None
      <-> (0 < max_str_digits py)%nat
          /\ 10 ^ Z.max 640 (Z.of_nat (max_str_digits py))
             <= Z.max 1 (duration / 3))
  /\ (duration < 3 * 10 ^ 640 \/ max_str_digits py = 0%nat ->
      storyboards_as_specified py product n m duration)
  /\ (forall sb,
        generate_storyboards py product n duration = Some sb ->
        keys sb = ["safe"; "innovative"; "experimental"]
        /\ NoDup (keys sb)
        /\ forall k scenes,
            dict_get k sb = Some scenes ->
            length scenes = 3%nat
            /\ Forall (fun scene => keys scene = ["description"; "prompt"])
                 scenes).
Proof.
  assert (forall sb,
            generate_storyboards py product n duration = Some sb ->
            keys sb = ["safe"; "innovative"; "experimental"]
            /\ NoDup (keys sb)
            /\ forall k scenes,
                dict_get k sb = Some scenes ->
                length scenes = 3%nat
                /\ Forall (fun scene => keys scene = ["description"; "prompt"])
                     scenes) as Hshape.
  { intros sb (safe & innovative & experimental & -> & Hs & Hi & He)
      %generate_storyboards_Some.
    split; [reflexivity|]. split; [compute_done|].
    intros k scenes. unfold dict_get.
    repeat case_match; intros [= <-]; by eapply build_scenes_shape. }
  split; [reflexivity|]. split; [|split; [|exact Hshape]].
  - rewrite generate_storyboards_None, format_int_None.
    by rewrite (Z.abs_eq (Z.max 1 (duration / 3))) by lia.
  - intros Hlim.
    destruct (generate_storyboards_returns py product n duration Hlim)
      as [sb Hsb].
    exists sb. destruct (Hshape sb Hsb) as (Hkeys & _ & Hscenes).
    split; [exact Hsb|]. split; [exact Hkeys|]. split; [|exact Hsb].
    intros k scenes Hk. by apply (Hscenes k scenes).
Qed.

(** What the scenes do interpolate: the prompts of all three scenes and the
    descriptions of the first two contain the product and the adjective
    phrase, and all three descriptions contain the segment length. *)
Lemma build_scenes_interpolation py product seg adjective scenes i text :
  build_scenes py product seg adjective = Some scenes ->
  (i < 3)%nat ->
  (scenes !! i ≫= dict_get "prompt" = Some text ->
     Contains product text /\ Contains adjective text)
  /\ (scenes !! i ≫= dict_get "description" = Some text ->
      Contains (str_of_int seg) text
      /\ (i <> 2%nat -> Contains product text /\ Contains adjective text)).
Proof.
  unfold build_scenes. destruct (format_int py seg) as [s|] eqn:Hf;
    [|discriminate].
  apply format_int_Some in Hf as ->. simpl. intros [= <-].
  intros Hi. destruct i as [|[|[|i]]]; [| | |lia]; simpl; split; intros H;
    injection H as <-;
    repeat match goal with
           | |- _ /\ _ => split
           | |- _ -> _ => intros ?
           end;
    try congruence; solve_contains.
Qed.

Lemma generate_storyboards_get py product n duration sb direction scenes :
  generate_storyboards py product n duration = Some sb ->
  dict_get direction sb = Some scenes ->
  exists adjective,
    build_scenes py product (Z.max 1 (duration / 3)) adjective = Some scenes
    /\ (direction, adjective) ∈
         [("safe", "safe and trustworthy");
          ("innovative", "innovative and modern");
          ("experimental", "experimental and artistic")].
Proof.
  intros (safe & innovative & experimental & -> & Hs & Hi & He)
    %generate_storyboards_Some.
  unfold dict_get.
  repeat case_match; intros [= <-];
    repeat match goal with
           | H : String.eqb _ _ = true |- _ => apply String.eqb_eq in H
           end; subst; eexists; (split; [eassumption|]); set_solver.
Qed.

Lemma scene_text_inv sb direction i part text :
  scene_text sb direction i part = Some text ->
  exists scenes, dict_get direction sb = Some scenes
    /\ scenes !! i ≫= dict_get part = Some text.
Proof.
  unfold scene_text. destruct (dict_get direction sb) as [scenes|]; simpl;
    [eauto | discriminate].
Qed.

Lemma build_scenes_length py product seg adjective scenes i :
  build_scenes py product seg adjective = Some scenes ->
  is_Some (scenes !! i) <-> (i < 3)%nat.
Proof.
  intros [Hl _]%build_scenes_shape. by rewrite lookup_lt_is_Some, Hl.
Qed.

Lemma generate_storyboards_segment py product n duration sb direction i text :
  generate_storyboards py product n duration = Some sb ->
  scene_text sb direction i "description" = Some text ->
  Contains (str_of_int (Z.max 1 (duration / 3))) text.
Proof.
  intros Hsb (scenes & Hd & H)%scene_text_inv.
  destruct (generate_storyboards_get _ _ _ _ _ _ _ Hsb Hd) as (adj & Hb & _).
  assert (i < 3)%nat as Hi.
  { apply (build_scenes_length _ _ _ _ _ i Hb).
    destruct (scenes !! i); [eauto | discriminate]. }
  by apply (build_scenes_interpolation _ _ _ _ _ i text Hb Hi).
Qed.

(** C5, at the input on which it fails.  The description of the third
    scene is the same text for every product and every direction, with the
    placeholders of its second literal left as written; for the product
    Widget and the safe direction it contains neither the product nor the
    adjective phrase.  The segment length is there: 2 for a duration of 6,
    1 for a duration of 2. *)
Theorem scene3_description_not_interpolated (py : interpreter) :
  (forall product n duration sb direction text,
     generate_storyboards py product n duration = Some sb ->
     scene_text sb direction 2 "description" = Some text ->
     text = "Scene" +:+ nbsp +:+ "3 (" +:+
            str_of_int (Z.max 1 (duration / 3)) +:+
            "s): Conclude by motivating viewers to act, leaving them with a memorable {adjective} impression of {product}.")
  /\ (exists sb,
       generate_storyboards py "Widget" 1 6 = Some sb
       /\ scene_text sb "safe" 2 "description"
          = Some ("Scene" +:+ nbsp +:+
                  "3 (2s): Conclude by motivating viewers to act, leaving them with a memorable {adjective} impression of {product}.")
       /\ forall text,
           scene_text sb "safe" 2 "description" = Some text ->
           ~ Contains "Widget" text /\ ~ Contains "safe and trustworthy" text)
  /\ (exists sb,
       generate_storyboards py "Widget" 1 2 = Some sb
       /\ scene_text sb "safe" 2 "description"
          = Some ("Scene" +:+ nbsp +:+
                  "3 (1s): Conclude by motivating viewers to act, leaving them with a memorable {adjective} impression of {product}.")).
Proof.
  split; [|split].
  - intros product n duration sb direction text Hsb
      (scenes & Hd & H)%scene_text_inv.
    destruct (generate_storyboards_get _ _ _ _ _ _ _ Hsb Hd) as (adj & Hb & _).
    unfold build_scenes in Hb.
    destruct (format_int py (Z.max 1 (duration / 3))) as [s|] eqn:Hf;
      [|discriminate].
    apply format_int_Some in Hf as ->. simpl in Hb. injection Hb as <-.
    simpl in H. by injection H as <-.
  - eexists. split; [vm_compute; reflexivity|].
    split; [vm_compute; reflexivity|].
    intros text H.
    assert (text = "Scene" +:+ nbsp +:+
             "3 (2s): Conclude by motivating viewers to act, leaving them with a memorable {adjective} impression of {product}.") as ->.
    { vm_compute in H. injection H as <-. vm_compute. reflexivity. }
    split; apply not_contains; vm_compute; reflexivity.
  - eexists. split; vm_compute; reflexivity.
Qed.

(** *** Login *)

Lemma USERS_provisioned (username password : option string) :
  (exists u p, username = Some u /\ dict_get u USERS = Some p
               /\ Some p = password)
  <-> provisioned_pair username password.
Proof.
  unfold provisioned_pair, USERS, dict_get. split.
  - intros (u & p & -> & H & <-).
    repeat case_match; try discriminate; injection H as <-;
      match goal with
      | H : String.eqb _ _ = true |- _ => apply String.eqb_eq in H as <-
      end; auto.
  - intros [[-> ->]|[-> ->]]; eauto.
Qed.

Lemma login_unauthenticated_post session req :
  truthy (session !! "username") = false -> method req = "POST" ->
  login_post_outcome session req.
Proof.
  intros Hs Hm. unfold login_post_outcome, login. rewrite Hs, Hm.
  change (String.eqb "POST" "POST") with true. cbv iota.
  pose proof (USERS_provisioned (dict_get "username" (form req))
                (dict_get "password" (form req))) as HU.
  destruct (dict_get "username" (form req)) as [u|].
  - destruct (dict_get u USERS) as [p|] eqn:Hp.
    + case_bool_decide as Hpw.
      * split; [eauto | intros Hn; destruct Hn; apply HU; eauto].
      * split; [|reflexivity].
        intros (u' & p' & [= <-] & Hp' & Hpw')%HU. congruence.
    + split; [|reflexivity].
      intros (u' & p' & [= <-] & Hp' & Hpw')%HU. congruence.
  - split; [|reflexivity].
    intros (u' & p' & [=] & _)%HU.
Qed.

Lemma login_authenticated session req :
  truthy (session !! "username") = true ->
  login session req = (Redirect "/dashboard", session).
Proof. intros Hs. unfold login. by rewrite Hs. Qed.

(** C1, as stated, at a client that is already logged in: a POST with a
    pair that is not provisioned is answered with the redirect to the
    dashboard and no error, and a POST with the demo pair leaves the
    session with the username it had. *)
Lemma login_post_when_logged_in :
  (method (post [("username", "mallory"); ("password", "guess")]) = "POST"
   /\ ~ login_post_outcome {["username" := "admin"]}
         (post [("username", "mallory"); ("password", "guess")]))
  /\ (method (post [("username", "demo"); ("password", "password123")]) = "POST"
      /\ ~ login_post_outcome {["username" := "admin"]}
            (post [("username", "demo"); ("password", "password123")])).
Proof.
  split; (split; [reflexivity|]); intros [Hok Hbad].
  - assert (~ provisioned_pair (Some "mallory") (Some "guess")) as Hn.
    { intros [[[=] _]|[[=] _]]. }
    specialize (Hbad Hn). rewrite login_authenticated in Hbad by reflexivity.
    discriminate.
  - destruct Hok as (u & [= <-] & H); [left; split; reflexivity|].
    rewrite login_authenticated in H by reflexivity.
    apply (f_equal (fun x : response * gmap string string =>
                      x.2 !! "username")) in H.
    vm_compute in H. discriminate.
Qed.

(** C1, amended.  A login POST from a client with no authenticated session
    succeeds for the pairs (demo, password123) and (admin, admin): the
    session then carries that username and the response redirects to the
    dashboard; every other pair renders the login page with the message
    "Invalid username or password" and leaves the session as it was.  A
    login POST from a client that is already authenticated redirects to the
    dashboard with the session unchanged, whatever the pair. *)
Theorem login_post (session : gmap string string) (req : request) :
  method req = "POST" ->
  (truthy (session !! "username") = false ->
     login_post_outcome session req
     /\ (forall u, (login session req).1 = Redirect "/dashboard" ->
           dict_get "username" (form req) = Some u ->
           (login session req).2 !! "username" = Some u))
  /\ (truthy (session !! "username") = true ->
      login session req = (Redirect "/dashboard", session)).
Proof.
  intros Hm. split; [|apply login_authenticated].
  intros Hs. pose proof (login_unauthenticated_post session req Hs Hm) as Ho.
  split; [exact Ho|]. intros u Hr Hu. destruct Ho as [Hok Hbad].
  destruct (decide (provisioned_pair (dict_get "username" (form req))
                      (dict_get "password" (form req)))) as [Hp|Hn].
  - destruct (Hok Hp) as (u' & Hu' & ->). simpl.
    rewrite lookup_insert_eq. congruence.
  - rewrite (Hbad Hn) in Hr. discriminate.
Qed.

Lemma login_post_witness :
  login ∅ (post [("username", "demo"); ("password", "password123")])
  = (Redirect "/dashboard", {["username" := "demo"]})
  /\ login ∅ (post [("username", "demo"); ("password", "admin")])
    = (Render "login.html" (LoginCtx (Some "Invalid username or password")), ∅)
  /\ login {["username" := "admin"]}
        (post [("username", "demo"); ("password", "password123")])
    = (Redirect "/dashboard", {["username" := "admin"]}).
Proof.
  split; [|split].
  - destruct (login_post ∅
                (post [("username", "demo"); ("password", "password123")])
                eq_refl) as [H _].
    destruct (H eq_refl) as [[Hok _] _].
    destruct Hok as (u & [= <-] & ->); [left; split; reflexivity|].
    reflexivity.
  - destruct (login_post ∅ (post [("username", "demo"); ("password", "admin")])
                eq_refl) as [H _].
    destruct (H eq_refl) as [[_ Hbad] _].
    apply Hbad. intros [[_ [=]]|[[=] _]].
  - destruct (login_post {["username" := "admin"]}
                (post [("username", "demo"); ("password", "password123")])
                eq_refl) as [_ H].
    apply H. reflexivity.
Defined.

(** *** Protected routes *)

Lemma dashboard_unauthenticated py session req :
  truthy (session !! "username") = false ->
  dashboard py session req = (Redirect "/", session).
Proof. intros Hs. unfold dashboard. by rewrite Hs. Qed.

Lemma api_generate_video_unauthenticated environ py session req :
  truthy (session !! "username") = false ->
  api_generate_video environ py session req
  = (Json 401 (VDict [("error", VStr "unauthenticated")]), session).
Proof. intros Hs. unfold api_generate_video. by rewrite Hs. Qed.

(** C2.  With no authenticated session, [/dashboard] answers every request,
    GET or POST, with a redirect to the login entry point [/], and
    [/api/generate_video] answers with status 401 and the JSON body
    [{"error": "unauthenticated"}]; the session is left as it was and
    neither answer is a server fault. *)
Theorem protected_routes_unauthenticated (environ : gmap string string)
    (py : interpreter) (session : gmap string string) (req : request) :
  truthy (session !! "username") = false ->
  rule ep_login = ("/", ["GET"; "POST"])
  /\ rule ep_dashboard = ("/dashboard", ["GET"; "POST"])
  /\ rule ep_api_generate_video = ("/api/generate_video", ["POST"])
  /\ dashboard py session req = (Redirect "/", session)
  /\ api_generate_video environ py session req
     = (Json 401 (VDict [("error", VStr "unauthenticated")]), session)
  /\ (forall status,
       (dashboard py session req).1 <> Abort status
       /\ (api_generate_video environ py session req).1
          <> Abort status).
Proof.
  intros Hs.
  rewrite (dashboard_unauthenticated py session req Hs).
  rewrite (api_generate_video_unauthenticated environ py
             session req Hs).
  repeat split; discriminate.
Qed.

Lemma protected_routes_unauthenticated_witness :
  dashboard example_interpreter ∅ (post [("product", "kettle")])
  = (Redirect "/", ∅)
  /\ dashboard example_interpreter ∅
       {| method := "GET"; form := []; json_body := None |}
     = (Redirect "/", ∅)
  /\ api_generate_video ∅ example_interpreter ∅
       {| method := "POST"; form := [];
          json_body := Some (VDict [("prompt", VStr "a kettle")]) |}
     = (Json 401 (VDict [("error", VStr "unauthenticated")]), ∅).
Proof.
  split; [|split].
  - apply (protected_routes_unauthenticated ∅ example_interpreter ∅
             (post [("product", "kettle")])); reflexivity.
  - apply (protected_routes_unauthenticated ∅ example_interpreter ∅
             {| method := "GET"; form := []; json_body := None |});
      reflexivity.
  - apply (protected_routes_unauthenticated ∅ example_interpreter ∅
             {| method := "POST"; form := [];
                json_body := Some (VDict [("prompt", VStr "a kettle")]) |});
      reflexivity.
Defined.

(** *** The brief *)

Lemma int_of_str_fallbacks py :
  int_of_str py "1" = Some 1
  /\ int_of_str py "6" = Some 6.
Proof. split; vm_compute; reflexivity. Qed.

Lemma int_of_str_brief_examples py :
  int_of_str py "99" = Some 99
  /\ int_of_str py "0" = Some 0
  /\ int_of_str py "1" = Some 1
  /\ int_of_str py "100" = Some 100
  /\ int_of_str py "abc" = None.
Proof. repeat split; vm_compute; reflexivity. Qed.

(** The code's fallback strings and [max]/[min] agree with the
    specification's default and clamp. *)
Lemma form_int_clamped py req field fallback dflt lo hi :
  int_of_str py fallback = Some dflt -> lo <= hi ->
  Z.max lo (Z.min (form_int py req field fallback dflt) hi)
  = spec_clamped_field py (dict_get field (form req)) dflt lo hi.
Proof.
  intros Hf Hlh. unfold form_int, spec_clamped_field.
  destruct (dict_get field (form req)) as [v|]; simpl.
  - destruct (int_of_str py v) as [n|]; simpl;
      repeat case_match; lia.
  - rewrite Hf. simpl. repeat case_match; lia.
Qed.

Lemma spec_clamped_field_range py field dflt lo hi :
  lo <= hi -> lo <= spec_clamped_field py field dflt lo hi <= hi.
Proof. intros H. unfold spec_clamped_field. repeat case_match; lia. Qed.

(** An authenticated POST to [/dashboard] renders the results page: the
    duration that [generate_storyboards] gets is at most 30. *)
Lemma dashboard_post py session req :
  truthy (session !! "username") = true -> method req = "POST" ->
  exists storyboards,
    generate_storyboards py
      (strip (default "" (dict_get "product" (form req))))
      (Z.max 1 (Z.min (form_int py req "num_videos" "1" 1) 10))
      (Z.max 2 (Z.min (form_int py req "duration" "6" 6) 30))
    = Some storyboards
    /\ dashboard py session req
       = (Render "results.html"
            (ResultsCtx
               (strip (default "" (dict_get "product" (form req))))
               (Z.max 1 (Z.min (form_int py req "num_videos" "1" 1) 10))
               (Z.max 2 (Z.min (form_int py req "duration" "6" 6) 30))
               (generate_directions
                  (strip (default "" (dict_get "product" (form req)))))
               storyboards), session).
Proof.
  intros Hs Hm.
  destruct (generate_storyboards_returns py
              (strip (default "" (dict_get "product" (form req))))
              (Z.max 1 (Z.min (form_int py req "num_videos" "1" 1) 10))
              (Z.max 2 (Z.min (form_int py req "duration" "6" 6) 30)))
    as [storyboards Hsb].
  { left. assert (0 < 10 ^ 640) by (by apply Z.pow_pos_nonneg).
    assert (30 < 10 ^ 640) by (by vm_compute). lia. }
  exists storyboards. split; [exact Hsb|].
  unfold dashboard. rewrite Hs, Hm.
  change (String.eqb "POST" "POST") with true. cbv iota beta zeta. simpl negb.
  cbv iota. by rewrite Hsb.
Qed.

(** C3.  An authenticated POST to [/dashboard] always renders the results
    page, with [num_videos] parsed as an integer, 1 when that fails, clamped
    to [[1, 10]], and [duration] parsed as an integer, 6 when that fails,
    clamped to [[2, 30]]: 99 gives 10 and 0 gives 1 videos, 1 gives 2 and
    100 gives 30 seconds, abc gives 1 video and 6 seconds. *)
Theorem dashboard_post_clamps (py : interpreter)
    (session : gmap string string) (req : request) :
  truthy (session !! "username") = true -> method req = "POST" ->
  (exists product num_videos duration storyboards,
     dashboard py session req
     = (Render "results.html"
          (ResultsCtx product num_videos duration
             (generate_directions product) storyboards), session)
     /\ generate_storyboards py product num_videos duration = Some storyboards
     /\ product = strip (default "" (dict_get "product" (form req)))
     /\ num_videos = spec_clamped_field py
                       (dict_get "num_videos" (form req)) 1 1 10
     /\ duration = spec_clamped_field py
                     (dict_get "duration" (form req)) 6 2 30
     /\ 1 <= num_videos <= 10 /\ 2 <= duration <= 30)
  /\ (rendered_num_videos <$>
        [(dashboard py session (post [("num_videos", "99")])).1;
         (dashboard py session (post [("num_videos", "0")])).1;
         (dashboard py session (post [("num_videos", "abc")])).1])
     = [Some 10; Some 1; Some 1]
  /\ (rendered_duration <$>
        [(dashboard py session (post [("duration", "1")])).1;
         (dashboard py session (post [("duration", "100")])).1;
         (dashboard py session (post [("duration", "abc")])).1])
     = [Some 2; Some 30; Some 6].
Proof.
  intros Hs Hm.
  destruct (int_of_str_fallbacks py) as [H1 H6].
  split; [|split].
  - destruct (dashboard_post py session req Hs Hm) as (storyboards & Hsb & ->).
    revert Hsb.
    rewrite (form_int_clamped py req "num_videos" "1" 1 1 10 H1)
      by lia.
    rewrite (form_int_clamped py req "duration" "6" 6 2 30 H6)
      by lia.
    intros Hsb. eexists _, _, _, storyboards. split; [reflexivity|].
    split; [exact Hsb|].
    repeat split; try apply spec_clamped_field_range; lia.
  - unfold dashboard. rewrite Hs. vm_compute. reflexivity.
  - unfold dashboard. rewrite Hs. vm_compute. reflexivity.
Qed.

Lemma dashboard_post_clamps_witness :
  exists storyboards,
    dashboard example_interpreter {["username" := "demo"]}
      (post [("product", " Solar kettle "); ("num_videos", "12");
             ("duration", "x")])
    = (Render "results.html"
         (ResultsCtx "Solar kettle" 10 6
            (generate_directions "Solar kettle") storyboards),
       {["username" := "demo"]})
    /\ generate_storyboards example_interpreter "Solar kettle" 10 6
       = Some storyboards.
Proof.
  destruct (dashboard_post_clamps example_interpreter
              {["username" := "demo"]}
              (post [("product", " Solar kettle "); ("num_videos", "12");
                     ("duration", "x")]))
    as [(product & num_videos & duration & storyboards
         & -> & Hsb & Hp & Hn & Hd & _) _];
    [reflexivity | reflexivity |].
  exists storyboards. rewrite Hp, Hn, Hd in Hsb |- *.
  split; [reflexivity | exact Hsb].
Defined.

(** *** Logout and the session invariant *)

Lemma logout_clears environ py session req req' :
  logout session req = (Redirect "/", delete "username" session)
  /\ (logout session req).2 !! "username" = None
  /\ dashboard py (logout session req).2 req'
     = (Redirect "/", (logout session req).2)
  /\ (api_generate_video environ py (logout session req).2 req').1
     = Json 401 (VDict [("error", VStr "unauthenticated")]).
Proof.
  split; [reflexivity|]. split; [apply lookup_delete_eq|].
  assert (truthy ((logout session req).2 !! "username") = false) as Hs.
  { unfold logout. simpl. by rewrite lookup_delete_eq. }
  rewrite (dashboard_unauthenticated py _ req' Hs).
  by rewrite (api_generate_video_unauthenticated environ py
                _ req' Hs).
Qed.

Lemma login_session session req :
  (login session req).2 = session
  \/ (exists u, (login session req).2 = <["username" := u]> session
       /\ truthy (session !! "username") = false
       /\ method req = "POST"
       /\ dict_get "username" (form req) = Some u
       /\ provisioned_pair (Some u) (dict_get "password" (form req))).
Proof.
  unfold login. destruct (truthy (session !! "username")) eqn:Hs; [by left|].
  destruct (String.eqb (method req) "POST") eqn:Hm; [|by left].
  apply String.eqb_eq in Hm.
  destruct (dict_get "username" (form req)) as [u|] eqn:Hu; [|by left].
  destruct (dict_get u USERS) as [p|] eqn:Hp; [|by left].
  case_bool_decide as Hpw; [|by left].
  right. exists u. repeat split; try done.
  apply USERS_provisioned. eauto.
Qed.

Lemma other_views_session environ py session req :
  (dashboard py session req).2 = session
  /\ (api_generate_video environ py session req).2 = session.
Proof.
  unfold dashboard, api_generate_video. split; repeat case_match; reflexivity.
Qed.

Lemma view_function_session environ py e session req :
  session_ok session ->
  session_ok (view_function environ py e session req).2
  /\ (forall k, k <> "username" ->
       (view_function environ py e session req).2 !! k = session !! k)
  /\ (forall u,
       (view_function environ py e session req).2 !! "username" = Some u ->
       session !! "username" <> Some u ->
       e = ep_login /\ method req = "POST"
       /\ truthy (session !! "username") = false
       /\ dict_get "username" (form req) = Some u
       /\ provisioned_pair (Some u) (dict_get "password" (form req))).
Proof.
  intros Hok.
  destruct (other_views_session environ py session req) as [Hd Ha].
  destruct e; simpl.
  - destruct (login_session session req)
      as [->|(u & -> & Hs & Hm & Hu & Hp)].
    + repeat split; try done.
    + split; [|split]; try done.
      * unfold session_ok. rewrite lookup_insert_eq.
        destruct Hp as [[[= ->] _]|[[= ->] _]]; auto.
      * intros k Hk. by rewrite lookup_insert_ne.
      * intros u'. rewrite lookup_insert_eq. intros [= <-] _. done.
  - rewrite Hd. repeat split; try done.
  - split; [|split].
    + left. apply lookup_delete_eq.
    + intros k Hk. by apply lookup_delete_ne.
    + intros u. unfold logout. simpl. by rewrite lookup_delete_eq.
  - rewrite Ha. repeat split; try done.
Qed.

(** A request either reaches the view of its rule, or is answered without
    it and leaves the session alone. *)
Lemma dispatch_request_cases environ py e session req :
  (method req ∈ view_methods e
   /\ dispatch_request environ py e session req
      = view_function environ py e session req)
  \/ ((method req ∉ view_methods e)
      /\ (dispatch_request environ py e session req).2 = session
      /\ (dispatch_request environ py e session req
          = (Abort 405, session)
          \/ (method req = "OPTIONS"
              /\ exists allow,
                   dispatch_request environ py e session req
                   = (Options allow, session)))).
Proof.
  unfold dispatch_request. case_bool_decide as Hm; [by left|right].
  split; [done|].
  destruct (String.eqb (method req) "OPTIONS") eqn:Ho; simpl.
  - apply String.eqb_eq in Ho. split; [done|]. right. eauto.
  - split; [done|]. by left.
Qed.

Lemma serve_session_ok environ py reqs session :
  session_ok session -> session_ok (serve environ py session reqs).
Proof.
  revert session. induction reqs as [|[e req] reqs IH]; intros session Hok.
  - exact Hok.
  - simpl. apply IH.
    destruct (dispatch_request_cases environ py e session req)
      as [[_ ->]|(_ & -> & _)]; [|exact Hok].
    by apply view_function_session.
Qed.

(** C9.  Every view preserves the invariant that the session is absent or
    carries one of the usernames demo and admin, so that it holds after
    every sequence of requests, and leaves every other key of the session
    alone.  Only [login] puts a username there, and only on a POST with a
    provisioned pair from a client that has none; [logout] removes it and
    redirects to the login page, after which [/dashboard] redirects to the
    login page too. *)
Theorem session_invariant (environ : gmap string string)
    (py : interpreter) (e : endpoint) (session : gmap string string)
    (req : request) :
  session_ok session ->
  session_ok (view_function environ py e session req).2
  /\ (forall reqs, session_ok (serve environ py session reqs))
  /\ (forall k, k <> "username" ->
       (view_function environ py e session req).2 !! k = session !! k)
  /\ (forall u,
       (view_function environ py e session req).2 !! "username" = Some u ->
       session !! "username" <> Some u ->
       e = ep_login /\ method req = "POST"
       /\ truthy (session !! "username") = false
       /\ dict_get "username" (form req) = Some u
       /\ provisioned_pair (Some u) (dict_get "password" (form req)))
  /\ (e = ep_logout ->
      view_function environ py e session req
        = (Redirect "/", delete "username" session)
      /\ (view_function environ py e session req).2 !! "username" = None
      /\ forall req',
          dashboard py (view_function environ py e session req).2 req'
          = (Redirect "/", (view_function environ py e session req).2)).
Proof.
  intros Hok.
  destruct (view_function_session environ py e session req Hok)
    as (H1 & H2 & H3).
  split; [exact H1|]. split; [intros reqs; by apply serve_session_ok|].
  split; [exact H2|]. split; [exact H3|].
  intros ->. simpl. split; [reflexivity|]. split; [apply lookup_delete_eq|].
  intros req'. apply (logout_clears environ py session req req').
Qed.

Lemma session_invariant_witness :
  session_ok
    (login ∅ (post [("username", "admin"); ("password", "admin")])).2
  /\ session_ok
       (serve ∅ example_interpreter ∅
          [(ep_login, post [("username", "demo"); ("password", "password123")]);
           (ep_dashboard, post [("product", "kettle")]);
           (ep_logout, {| method := "GET"; form := []; json_body := None |});
           (ep_login, post [("username", "admin"); ("password", "admin")])])
  /\ logout {["username" := "admin"]}
       {| method := "GET"; form := []; json_body := None |}
     = (Redirect "/", delete "username" {["username" := "admin"]}).
Proof.
  split; [|split].
  - apply (session_invariant ∅ example_interpreter ep_login ∅
             (post [("username", "admin"); ("password", "admin")])).
    left. reflexivity.
  - apply (session_invariant ∅ example_interpreter ep_login ∅ (post [])).
    left. reflexivity.
  - apply (session_invariant ∅ example_interpreter ep_logout
             {["username" := "admin"]}
             {| method := "GET"; form := []; json_body := None |});
      [|reflexivity].
    right. right. reflexivity.
Defined.

(** *** Configuration *)

(** C10, as stated, with an empty environment: the default secret is used
    and no warning is given. *)
Lemma secret_key_fallback_gives_no_warning :
  (∅ : gmap string string) !! "FLASK_SECRET_KEY" = None
  /\ secret_key ∅ = "change-me"
  /\ ~ secret_fallback_warns ∅.
Proof.
  split; [reflexivity|]. split; [reflexivity|].
  intros [_ [msg Hmsg]]. simpl in Hmsg. by apply not_elem_of_nil in Hmsg.
Qed.

(** C10, amended.  When the environment has no [FLASK_SECRET_KEY] the
    secret is the default [change-me], and this happens silently: the
    start-up does nothing to the outside world and leaves the same
    configuration as an environment that sets the variable to that value.
    When the variable is set, its value is the secret. *)
Theorem secret_key_fallback_silent (environ : gmap string string) :
  environ !! "FLASK_SECRET_KEY" = None ->
  secret_key environ = "change-me"
  /\ (startup environ).1 = []
  /\ startup environ = startup (<["FLASK_SECRET_KEY" := "change-me"]> environ)
  /\ forall v, secret_key (<["FLASK_SECRET_KEY" := v]> environ) = v.
Proof.
  intros He. unfold startup, secret_key, HAILUO_API_KEY.
  rewrite He, !lookup_insert_eq, lookup_insert_ne by done.
  repeat split. intros v. by rewrite lookup_insert_eq.
Qed.

Lemma secret_key_fallback_silent_witness :
  startup ∅ = ([], ("change-me", USERS, None)).
Proof.
  destruct (secret_key_fallback_silent ∅) as (Hk & Hev & _); [reflexivity|].
  unfold startup in *. simpl in *. rewrite Hk. reflexivity.
Defined.

(** *** The video task client *)

(** C7.  Without a configured API key (the variable unset or empty) a call
    does nothing to the outside world, no request and no sleep, and returns
    [task_id = None], [video_url = None] and a message that is not empty. *)
Theorem call_hailuo_api_unconfigured (environ : gmap string string)
    (prompt : value) (duration : Z) (image end_image : option string)
    (resolution : string) :
  truthy (HAILUO_API_KEY environ) = false ->
  (call_hailuo_api environ prompt duration image end_image resolution).1 = []
  /\ keys (call_hailuo_api environ prompt duration image end_image
             resolution).2
     = ["task_id"; "video_url"; "message"]
  /\ dict_get "task_id"
       (call_hailuo_api environ prompt duration image end_image resolution).2
     = Some VNone
  /\ dict_get "video_url"
       (call_hailuo_api environ prompt duration image end_image resolution).2
     = Some VNone
  /\ exists msg,
       dict_get "message"
         (call_hailuo_api environ prompt duration image end_image
            resolution).2
       = Some (VStr msg)
       /\ msg <> "".
Proof.
  intros Hk. unfold call_hailuo_api. rewrite Hk. simpl.
  repeat split. eexists. split; [reflexivity | discriminate].
Qed.

Lemma call_hailuo_api_unconfigured_witness :
  (call_hailuo_api ∅ (VStr "a kettle at dawn") 6 None None "768P").1 = []
  /\ dict_get "video_url"
       (call_hailuo_api {["HAILUO_API_KEY" := ""]} (VStr "a kettle at dawn")
          6 None None "768P").2
     = Some VNone.
Proof.
  split.
  - apply (call_hailuo_api_unconfigured ∅ (VStr "a kettle at dawn") 6
             None None "768P"). reflexivity.
  - apply (call_hailuo_api_unconfigured {["HAILUO_API_KEY" := ""]}
             (VStr "a kettle at dawn") 6 None None "768P"). reflexivity.
Defined.

(** The polling loop of the disabled block. *)
Section Polling.

Variable poll_reply : nat -> option value.
Variable headers : dict string.
Variable task_id : value.

Lemma poll_pending attempts i :
  (forall j, (i <= j < i + attempts)%nat ->
     poll_once task_id (poll_reply j) = None) ->
  poll poll_reply headers task_id attempts i
  = (concat (replicate attempts [HttpGet result_url task_id headers; Sleep 1]),
     inr [("task_id", task_id); ("video_url", VNone);
          ("message", VStr "Timed out waiting for video")]).
Proof.
  revert i. induction attempts as [|attempts IH]; intros i Hp; [reflexivity|].
  simpl. rewrite Hp by lia. rewrite IH; [reflexivity|].
  intros j Hj. apply Hp. lia.
Qed.

Lemma poll_terminal attempts i k r :
  (k < attempts)%nat ->
  (forall j, (i <= j < i + k)%nat -> poll_once task_id (poll_reply j) = None) ->
  poll_once task_id (poll_reply (i + k)) = Some r ->
  poll poll_reply headers task_id attempts i
  = (concat (replicate k [HttpGet result_url task_id headers; Sleep 1]) ++ [HttpGet result_url task_id headers], r).
Proof.
  revert i k. induction attempts as [|attempts IH]; intros i k Hk Hp Hr; [lia|].
  destruct k as [|k]; simpl.
  - rewrite Nat.add_0_r in Hr. by rewrite Hr.
  - rewrite Hp by lia. rewrite (IH (S i) k); [reflexivity|lia| |].
    + intros j Hj. apply Hp. lia.
    + by replace (S i + k)%nat with (i + S k)%nat by lia.
Qed.

Lemma poll_bound attempts i :
  (length (filter is_get (poll poll_reply headers task_id attempts i).1)
     <= attempts)%nat
  /\ Forall (fun e => e = HttpGet result_url task_id headers \/ e = Sleep 1)
       (poll poll_reply headers task_id attempts i).1.
Proof.
  revert i. induction attempts as [|attempts IH]; intros i; simpl.
  - split; [lia | constructor].
  - destruct (poll_once task_id (poll_reply i)) as [r|]; simpl.
    + split; [lia|]. apply Forall_singleton. auto.
    + destruct (IH (S i)) as [Hl Hf].
      destruct (poll poll_reply headers task_id attempts (S i)) as [events r].
      simpl in *. split.
      * rewrite filter_cons_False; [lia | intros []].
      * repeat (apply Forall_cons; split; [auto|]). assumption.
Qed.

End Polling.

(** The states of a task, as the disabled block reads them from the answer
    to a status request. *)
Lemma poll_once_states task_id data task :
  dict_get "task" data = Some (VDict task) ->
  (dict_get "status" task = Some (VStr "TASK_STATUS_FAILED") ->
   poll_once task_id (Some (VDict data))
   = Some (inr [("task_id", task_id); ("video_url", VNone);
                ("message", VStr "Generation failed")]))
  /\ (forall video rest,
       dict_get "status" task = Some (VStr "TASK_STATUS_SUCCEED") ->
       dict_get "videos" data = Some (VList (VDict video :: rest)) ->
       poll_once task_id (Some (VDict data))
       = Some (inr [("task_id", task_id);
                    ("video_url", default VNone (dict_get "video_url" video))]))
  /\ (dict_get "status" task = Some (VStr "TASK_STATUS_SUCCEED") ->
      dict_get "videos" data = None ->
      poll_once task_id (Some (VDict data))
      = Some (inr [("task_id", task_id); ("video_url", VNone)]))
  /\ (forall status,
       dict_get "status" task = Some (VStr status) ->
       status <> "TASK_STATUS_SUCCEED" -> status <> "TASK_STATUS_FAILED" ->
       poll_once task_id (Some (VDict data)) = None).
Proof.
  intros Ht. unfold poll_once. rewrite Ht. simpl. repeat split.
  - intros ->. reflexivity.
  - intros video rest -> ->. reflexivity.
  - intros -> ->. reflexivity.
  - intros status -> H1 H2. simpl.
    apply String.eqb_neq in H1, H2. by rewrite H1, H2.
Qed.

Lemma call_hailuo_api_enabled_gets environ post_reply poll_reply prompt
    duration image end_image resolution :
  (length (filter is_get
             (call_hailuo_api_enabled environ post_reply poll_reply prompt
                duration image end_image resolution).1) <= 60)%nat.
Proof.
  unfold call_hailuo_api_enabled.
  destruct (negb (truthy (HAILUO_API_KEY environ))); [simpl; lia|].
  cbv zeta. destruct post_reply as [[| | | | | |response]|];
    try (simpl; lia).
  destruct (negb (truthy_value (default VNone (dict_get "task_id" response))));
    [simpl; lia|].
  match goal with
  | |- context [poll ?p ?h ?t 60%nat 0%nat] =>
      pose proof (poll_bound p h t 60 0) as [Hb _];
        destruct (poll p h t 60%nat 0%nat) as [events r]
  end.
  cbn [fst] in *. by rewrite filter_cons_False by (intros []).
Qed.

(** C8, as stated, with a configured key: the call sends no job creation
    request. *)
Lemma call_hailuo_api_configured_sends_nothing :
  truthy (HAILUO_API_KEY {["HAILUO_API_KEY" := "sk-test"]}) = true
  /\ ~ submits_job
        (call_hailuo_api {["HAILUO_API_KEY" := "sk-test"]}
           (VStr "a kettle at dawn") 6 None None "768P").
Proof.
  split; [reflexivity|]. intros (headers & payload & H).
  by apply not_elem_of_nil in H.
Qed.

(** C8, amended.  With a configured API key a call does nothing to the
    outside world and returns the placeholder result: [task_id = None],
    [video_url = None] and the message "Networking disabled; returning
    placeholder response.".  The protocol is that of the disabled block of
    the function; with that block as code a call first submits the job
    creation request, makes at most 60 status requests, and
    - raises [RuntimeError] after the submission alone when the answer has
      no task identifier;
    - returns the result of the first status request that ends the loop,
      having slept one second after each request before it: a task that
      succeeded gives the first video URL, or [None] when there is none, a
      task that failed gives [video_url = None] with the message
      "Generation failed", any other status leaves the task pending;
    - after 60 status requests that leave the task pending, each followed
      by a sleep of one second, returns [video_url = None] with the message
      "Timed out waiting for video". *)
Theorem call_hailuo_api_configured (environ : gmap string string)
    (post_reply : option value) (poll_reply : nat -> option value)
    (prompt : value) (duration : Z) (image end_image : option string)
    (resolution : string) :
  truthy (HAILUO_API_KEY environ) = true ->
  call_hailuo_api environ prompt duration image end_image resolution
    = ([], placeholder "Networking disabled; returning placeholder response.")
  /\ exists headers payload,
      dict_get "Authorization" headers
        = Some ("Bearer " +:+ default "None" (HAILUO_API_KEY environ))
      /\ dict_get "prompt" payload = Some prompt
      /\ dict_get "duration" payload = Some (VInt duration)
      /\ dict_get "resolution" payload = Some (VStr resolution)
      /\ dict_get "enable_prompt_expansion" payload = Some (VBool true)
      /\ head (call_hailuo_api_enabled environ post_reply poll_reply prompt
                 duration image end_image resolution).1
         = Some (HttpPost create_url headers payload)
      /\ (length (filter is_get
                    (call_hailuo_api_enabled environ post_reply poll_reply
                       prompt duration image end_image resolution).1)
          <= 60)%nat
      /\ (forall response,
           post_reply = Some (VDict response) ->
           truthy_value (default VNone (dict_get "task_id" response)) = false ->
           call_hailuo_api_enabled environ post_reply poll_reply prompt
             duration image end_image resolution
           = ([HttpPost create_url headers payload],
              inl (RuntimeError
                     "Failed to get task_id from Hailuo API response")))
      /\ (forall response task_id,
           post_reply = Some (VDict response) ->
           dict_get "task_id" response = Some task_id ->
           truthy_value task_id = true ->
           ((forall j, (j < 60)%nat ->
               poll_once task_id (poll_reply j) = None) ->
            call_hailuo_api_enabled environ post_reply poll_reply prompt
              duration image end_image resolution
            = (HttpPost create_url headers payload
                 :: concat (replicate 60
                              [HttpGet result_url task_id headers; Sleep 1]),
               inr [("task_id", task_id); ("video_url", VNone);
                    ("message", VStr "Timed out waiting for video")]))
           /\ (forall k r, (k < 60)%nat ->
                 (forall j, (j < k)%nat ->
                    poll_once task_id (poll_reply j) = None) ->
                 poll_once task_id (poll_reply k) = Some r ->
                 call_hailuo_api_enabled environ post_reply poll_reply prompt
                   duration image end_image resolution
                 = (HttpPost create_url headers payload
                      :: concat (replicate k
                                   [HttpGet result_url task_id headers;
                                    Sleep 1])
                      ++ [HttpGet result_url task_id headers],
                    r)))
      /\ (forall task_id data task,
           dict_get "task" data = Some (VDict task) ->
           (dict_get "status" task = Some (VStr "TASK_STATUS_FAILED") ->
            poll_once task_id (Some (VDict data))
            = Some (inr [("task_id", task_id); ("video_url", VNone);
                         ("message", VStr "Generation failed")]))
           /\ (forall video rest,
                dict_get "status" task = Some (VStr "TASK_STATUS_SUCCEED") ->
                dict_get "videos" data = Some (VList (VDict video :: rest)) ->
                poll_once task_id (Some (VDict data))
                = Some (inr [("task_id", task_id);
                             ("video_url",
                              default VNone (dict_get "video_url" video))]))
           /\ (dict_get "status" task = Some (VStr "TASK_STATUS_SUCCEED") ->
               dict_get "videos" data = None ->
               poll_once task_id (Some (VDict data))
               = Some (inr [("task_id", task_id); ("video_url", VNone)]))
           /\ (forall status,
                dict_get "status" task = Some (VStr status) ->
                status <> "TASK_STATUS_SUCCEED" ->
                status <> "TASK_STATUS_FAILED" ->
                poll_once task_id (Some (VDict data)) = None)).
Proof.
  intros Hk. split; [unfold call_hailuo_api; by rewrite Hk|].
  pose proof (call_hailuo_api_enabled_gets environ post_reply poll_reply
                prompt duration image end_image resolution) as Hgets.
  unfold call_hailuo_api_enabled in *. rewrite Hk in *. simpl negb in *.
  cbv iota zeta in *.
  match goal with
  | |- context [HttpPost create_url ?h ?p] => exists h, p
  end.
  split; [reflexivity|].
  split; [by repeat case_match|]. split; [by repeat case_match|].
  split; [by repeat case_match|]. split; [by repeat case_match|].
  split; [destruct post_reply as [[| | | | | |response]|]; try reflexivity;
          destruct (negb (truthy_value
                            (default VNone (dict_get "task_id" response))));
          try reflexivity; by destruct (poll _ _ _ _ _)|].
  split; [exact Hgets|]. split; [|split; [|apply poll_once_states]].
  - intros response -> Hid. by rewrite Hid.
  - intros response task_id -> Hid Ht. rewrite Hid. simpl default.
    rewrite Ht. simpl negb. cbv iota. split.
    + intros Hp. rewrite poll_pending; [reflexivity|].
      intros j Hj. apply Hp. lia.
    + intros k r Hk60 Hp Hr.
      rewrite (poll_terminal _ _ _ 60 0 k r); [reflexivity|lia| |exact Hr].
      intros j Hj. apply Hp. lia.
Qed.

Lemma call_hailuo_api_configured_witness :
  call_hailuo_api {["HAILUO_API_KEY" := "sk-test"]}
    (VStr "a kettle at dawn") 6 None None "768P"
  = ([], placeholder "Networking disabled; returning placeholder response.")
  /\ (call_hailuo_api_enabled {["HAILUO_API_KEY" := "sk-test"]}
        accepting_service (service_after 100)
        (VStr "a kettle at dawn") 6 None None "768P").2
     = inr [("task_id", VStr "t-1"); ("video_url", VNone);
            ("message", VStr "Timed out waiting for video")]
  /\ (call_hailuo_api_enabled {["HAILUO_API_KEY" := "sk-test"]}
        accepting_service (service_after 2)
        (VStr "a kettle at dawn") 6 None None "768P").2
     = inr [("task_id", VStr "t-1"); ("video_url", VStr "https://cdn/v.mp4")].
Proof.
  split; [|split].
  - apply (call_hailuo_api_configured {["HAILUO_API_KEY" := "sk-test"]}
             None (fun _ => None) (VStr "a kettle at dawn") 6 None None "768P").
    reflexivity.
  - destruct (call_hailuo_api_configured {["HAILUO_API_KEY" := "sk-test"]}
                accepting_service (service_after 100)
                (VStr "a kettle at dawn") 6 None None "768P")
      as (_ & headers & payload & _ & _ & _ & _ & _ & _ & _ & _ & H & _);
      [reflexivity|].
    destruct (H [("task_id", VStr "t-1")] (VStr "t-1"))
      as [Htimeout _]; [reflexivity..|].
    rewrite Htimeout; [reflexivity|].
    intros j Hj. unfold service_after.
    rewrite bool_decide_eq_true_2 by lia. reflexivity.
  - destruct (call_hailuo_api_configured {["HAILUO_API_KEY" := "sk-test"]}
                accepting_service (service_after 2)
                (VStr "a kettle at dawn") 6 None None "768P")
      as (_ & headers & payload & _ & _ & _ & _ & _ & _ & _ & _ & H & _);
      [reflexivity|].
    destruct (H [("task_id", VStr "t-1")] (VStr "t-1"))
      as [_ Hterminal]; [reflexivity..|].
    rewrite (Hterminal 2%nat
               (inr [("task_id", VStr "t-1");
                     ("video_url", VStr "https://cdn/v.mp4")]));
      [reflexivity | lia | | reflexivity].
    intros j Hj. unfold service_after.
    rewrite bool_decide_eq_true_2 by lia. reflexivity.
Defined.

(** ** Further properties *)

(** *** The session gate *)

Lemma api_generate_video_authenticated_cases environ py session req :
  truthy (session !! "username") = true ->
  (get_json py req = None
   /\ api_generate_video environ py session req = (Abort 400, session))
  \/ ((exists v,
         get_json py req = Some v
         /\ forall data, v = VDict data ->
              exists e,
                int_of_value py (default (VInt 6) (dict_get "duration" data))
                = inl e)
      /\ api_generate_video environ py session req = (Abort 500, session))
  \/ (exists data duration msg,
        get_json py req = Some (VDict data)
        /\ int_of_value py (default (VInt 6) (dict_get "duration" data))
           = inr duration
        /\ api_generate_video environ py session req
           = (Json 200 (VDict [("task_id", VNone); ("video_url", VNone);
                               ("message", VStr msg)]), session)
        /\ msg = (if truthy (HAILUO_API_KEY environ)
                  then "Networking disabled; returning placeholder response."
                  else "Hailuo API key not configured; skipping real API call.")).
Proof.
  intros Hs. unfold api_generate_video. rewrite Hs. simpl negb. cbv iota.
  destruct (get_json py req) as [[| | | | | |data]|]; [..|by left];
    try (right; left; split; [eexists; split; [done|]; intros ? [=]|done]).
  destruct (int_of_value py (default (VInt 6) (dict_get "duration" data)))
    as [e|duration] eqn:Hd.
  - right. left. split; [|done]. eexists. split; [done|].
    intros ? [= <-]. eauto.
  - right. right. unfold call_hailuo_api.
    destruct (truthy (HAILUO_API_KEY environ)); simpl; eauto 10.
Qed.

Lemma view_methods_dashboard m :
  m ∈ view_methods ep_dashboard <-> m ∈ ["GET"; "HEAD"; "POST"].
Proof.
  change (view_methods ep_dashboard) with ["HEAD"; "GET"; "POST"].
  rewrite !elem_of_cons, !elem_of_nil. tauto.
Qed.

Lemma view_methods_api_generate_video m :
  m ∈ view_methods ep_api_generate_video <-> m = "POST".
Proof.
  change (view_methods ep_api_generate_video) with ["POST"].
  rewrite !elem_of_cons, !elem_of_nil. tauto.
Qed.

Lemma view_methods_logout m :
  m ∈ view_methods ep_logout <-> m ∈ ["GET"; "HEAD"].
Proof.
  change (view_methods ep_logout) with ["HEAD"; "GET"].
  rewrite !elem_of_cons, !elem_of_nil. tauto.
Qed.

(** X1.  The gate of the protected routes is exact.  [/dashboard] answers
    with the redirect to the login page exactly when the method is GET,
    HEAD or POST and the session has no username, and
    [/api/generate_video] answers 401 exactly when the method is POST and
    the session has none.  Every method that the rule does not have,
    OPTIONS apart, gets status 405 whatever the session, which stays as it
    is; an authenticated GET or HEAD of [/dashboard] gets the brief
    form. *)
Theorem session_gate_exact (environ : gmap string string) (py : interpreter)
    (session : gmap string string) (req : request) :
  ((dispatch_request environ py ep_dashboard session req).1 = Redirect "/"
   <-> method req ∈ ["GET"; "HEAD"; "POST"]
       /\ truthy (session !! "username") = false)
  /\ ((dispatch_request environ py ep_api_generate_video session req).1
      = Json 401 (VDict [("error", VStr "unauthenticated")])
      <-> method req = "POST" /\ truthy (session !! "username") = false)
  /\ (method req ∉ ["GET"; "HEAD"; "POST"; "OPTIONS"] ->
      dispatch_request environ py ep_dashboard session req
      = (Abort 405, session))
  /\ (method req ∉ ["POST"; "OPTIONS"] ->
      dispatch_request environ py ep_api_generate_video session req
      = (Abort 405, session))
  /\ (truthy (session !! "username") = true ->
      method req ∈ ["GET"; "HEAD"] ->
      dispatch_request environ py ep_dashboard session req
      = (Render "index.html" IndexCtx, session)).
Proof.
  split; [|split; [|split; [|split]]].
  - destruct (dispatch_request_cases environ py ep_dashboard session req)
      as [[Hm ->]|(Hm & _ & [->|[_ [allow ->]]])];
      rewrite view_methods_dashboard in Hm;
      [|split; [discriminate|by intros [? _]]..].
    simpl. split.
    + intros Hr. split; [done|].
      destruct (truthy (session !! "username")) eqn:Hs; [|done].
      unfold dashboard in Hr. rewrite Hs in Hr. simpl in Hr.
      by repeat case_match.
    + intros [_ Hs]. by rewrite dashboard_unauthenticated.
  - destruct (dispatch_request_cases environ py ep_api_generate_video
                session req)
      as [[Hm ->]|(Hm & _ & [->|[_ [allow ->]]])];
      rewrite view_methods_api_generate_video in Hm;
      [|split; [discriminate|by intros [? _]]..].
    simpl. split.
    + intros Hr. split; [done|].
      destruct (truthy (session !! "username")) eqn:Hs; [|done].
      destruct (api_generate_video_authenticated_cases environ py session
                  req Hs)
        as [[_ H]|[[_ H]|(data & d & msg & _ & _ & H & _)]];
        rewrite H in Hr; discriminate.
    + intros [_ Hs]. by rewrite api_generate_video_unauthenticated.
  - intros Hm.
    destruct (dispatch_request_cases environ py ep_dashboard session req)
      as [[Hv _]|(_ & _ & [H|[Ho _]])]; [|exact H|].
    + apply view_methods_dashboard in Hv. revert Hm Hv.
      rewrite !not_elem_of_cons, !elem_of_cons, !elem_of_nil. tauto.
    + revert Hm. rewrite !not_elem_of_cons. tauto.
  - intros Hm.
    destruct (dispatch_request_cases environ py ep_api_generate_video
                session req)
      as [[Hv _]|(_ & _ & [H|[Ho _]])]; [|exact H|].
    + apply view_methods_api_generate_video in Hv. revert Hm.
      rewrite !not_elem_of_cons. tauto.
    + revert Hm. rewrite !not_elem_of_cons. tauto.
  - intros Hs Hm.
    destruct (dispatch_request_cases environ py ep_dashboard session req)
      as [[_ ->]|(Hv & _)].
    + simpl. unfold dashboard. rewrite Hs. simpl.
      assert (String.eqb (method req) "POST" = false) as ->; [|done].
      apply String.eqb_neq. intros Hp. rewrite Hp in Hm.
      revert Hm. rewrite !elem_of_cons, !elem_of_nil.
      intros [[=]|[[=]|[]]].
    + rewrite view_methods_dashboard in Hv. destruct Hv. revert Hm.
      rewrite !elem_of_cons, !elem_of_nil. tauto.
Qed.

Lemma logout_session session req :
  (logout session req).2 !! "username" = None.
Proof. apply lookup_delete_eq. Qed.

Lemma serve_authenticated environ py reqs session :
  truthy (serve environ py session reqs !! "username") = true ->
  (truthy (session !! "username") = true
   /\ forall r, r ∈ reqs -> ~ served_logout r)
  \/ (exists before r after,
        reqs = before ++ r :: after /\ successful_login r
        /\ forall r', r' ∈ after -> ~ served_logout r').
Proof.
  revert session. induction reqs as [|[e req] reqs IH]; intros session H.
  - left. split; [exact H|]. intros r Hr. by apply not_elem_of_nil in Hr.
  - simpl in H.
    destruct (IH _ H) as [[Hs Hno]|(before & r & after & -> & Hr & Hno)];
      [|right; by exists ((e, req) :: before), r, after].
    destruct (dispatch_request_cases environ py e session req)
      as [[Hm Hv]|(Hm & Hsame & _)].
    + rewrite Hv in Hs.
      destruct (other_views_session environ py session req) as [Hd Ha].
      destruct e; simpl in Hs.
      * destruct (login_session session req)
          as [Heq|(u & Heq & Hf & Hp & Hu & Hpair)].
        -- left. rewrite Heq in Hs. split; [exact Hs|].
           intros r [->|Hr]%elem_of_cons; [by intros [[=] _]|by apply Hno].
        -- right. exists [], (ep_login, req), reqs. split; [done|].
           split; [|exact Hno]. unfold successful_login. simpl.
           by rewrite Hu.
      * left. rewrite Hd in Hs. split; [exact Hs|].
        intros r [->|Hr]%elem_of_cons; [by intros [[=] _]|by apply Hno].
      * unfold logout in Hs. simpl in Hs. by rewrite lookup_delete_eq in Hs.
      * left. rewrite Ha in Hs. split; [exact Hs|].
        intros r [->|Hr]%elem_of_cons; [by intros [[=] _]|by apply Hno].
    + left. rewrite Hsame in Hs. split; [exact Hs|].
      intros r [->|Hr]%elem_of_cons; [|by apply Hno].
      intros [He Hl]. simpl in He, Hl. by subst e.
Qed.

(** X2.  No page without a login.  When a client that starts with an empty
    session is served a page by [/dashboard] after a sequence of requests,
    that sequence contains a login POST with a provisioned pair, and no
    request after it logs out: none is a GET or HEAD of [/logout].  A
    request to [/logout] with another method does not count, as it leaves
    the session alone. *)
Theorem dashboard_requires_login (environ : gmap string string)
    (py : interpreter) (reqs : list (endpoint * request)) (req : request)
    (template : string) (ctx : context) :
  (dispatch_request environ py ep_dashboard (serve environ py ∅ reqs) req).1
  = Render template ctx ->
  (exists before r after,
     reqs = before ++ r :: after /\ successful_login r
     /\ forall r', r' ∈ after -> ~ served_logout r')
  /\ forall e req',
      method req' ∉ view_methods e ->
      serve environ py ∅ (reqs ++ [(e, req')]) = serve environ py ∅ reqs.
Proof.
  intros Hr. split.
  - destruct (truthy (serve environ py ∅ reqs !! "username")) eqn:Hs.
    + destruct (serve_authenticated environ py reqs ∅ Hs) as [[He _]|H];
        [discriminate|exact H].
    + destruct (dispatch_request_cases environ py ep_dashboard
                  (serve environ py ∅ reqs) req)
        as [[_ Hv]|(_ & _ & [H|[_ [allow H]]])];
        rewrite ?Hv, ?H in Hr; try discriminate.
      simpl in Hr. by rewrite dashboard_unauthenticated in Hr.
  - intros e req' Hm. clear Hr. generalize (∅ : gmap string string).
    induction reqs as [|[e0 r0] reqs IH]; intros session; simpl; [|apply IH].
    by destruct (dispatch_request_cases environ py e session req')
      as [[Hv _]|(_ & -> & _)].
Qed.

Lemma dashboard_requires_login_witness :
  exists before r after,
    [(ep_dashboard, post []);
     (ep_login, post [("username", "demo"); ("password", "password123")]);
     (ep_logout, post []);
     (ep_api_generate_video, post [])]
    = before ++ r :: after /\ successful_login r
    /\ forall r', r' ∈ after -> ~ served_logout r'.
Proof.
  apply (dashboard_requires_login ∅ example_interpreter
           [(ep_dashboard, post []);
            (ep_login, post [("username", "demo"); ("password", "password123")]);
            (ep_logout, post []);
            (ep_api_generate_video, post [])]
           (post [("product", "kettle")])
           "results.html"
           (ResultsCtx "kettle" 1 6 (generate_directions "kettle")
              (default [] (generate_storyboards example_interpreter
                             "kettle" 1 6)))).
  vm_compute. reflexivity.
Defined.

(** *** Login and logout *)

(** X3.  A failed login tells nothing about the reason: from a client that
    is not logged in, every login POST whose pair is not provisioned, be the
    username unknown, the password wrong or a field missing, gets the same
    response and leaves the session as it was. *)
Theorem login_failures_alike (session : gmap string string)
    (req req' : request) :
  truthy (session !! "username") = false ->
  method req = "POST" -> method req' = "POST" ->
  ~ provisioned_pair (dict_get "username" (form req))
      (dict_get "password" (form req)) ->
  ~ provisioned_pair (dict_get "username" (form req'))
      (dict_get "password" (form req')) ->
  login session req = login session req'
  /\ (login session req).2 = session.
Proof.
  intros Hs Hm Hm' Hn Hn'.
  destruct (login_unauthenticated_post session req Hs Hm) as [_ H].
  destruct (login_unauthenticated_post session req' Hs Hm') as [_ H'].
  by rewrite (H Hn), (H' Hn').
Qed.

Lemma login_failures_alike_witness :
  login ∅ (post [("username", "nobody"); ("password", "admin")])
  = login ∅ (post [("username", "admin"); ("password", "Admin")]).
Proof.
  apply (login_failures_alike ∅
           (post [("username", "nobody"); ("password", "admin")])
           (post [("username", "admin"); ("password", "Admin")]));
    try reflexivity.
  - intros [[[=] _]|[[=] _]].
  - intros [[[=] _]|[_ [=]]].
Defined.

Lemma login_redirect_unauthenticated session req :
  truthy (session !! "username") = false ->
  (login session req).1 = Redirect "/dashboard" ->
  exists u, dict_get "username" (form req) = Some u
    /\ provisioned_pair (Some u) (dict_get "password" (form req))
    /\ login session req = (Redirect "/dashboard", <["username" := u]> session).
Proof.
  intros Hs. unfold login. rewrite Hs.
  destruct (String.eqb (method req) "POST"); [|discriminate].
  destruct (dict_get "username" (form req)) as [u|]; [|discriminate].
  destruct (dict_get u USERS) as [p|] eqn:Hp; [|discriminate].
  case_bool_decide as Hpw; [|discriminate].
  intros _. exists u. repeat split. apply USERS_provisioned. eauto.
Qed.

(** X4.  Login followed by logout leaves the session without a username
    and otherwise as it was before the login, whether the login succeeded or
    not; logging out twice is logging out once; a logout of a client that
    is not logged in changes nothing; and after a successful login a second
    login request, whatever it carries, is answered with the redirect to
    the dashboard and keeps the session. *)
Theorem login_logout_round_trip (session : gmap string string)
    (req req' req'' : request) :
  (logout (login session req).2 req').2 = delete "username" session
  /\ (logout (logout session req).2 req').2 = (logout session req).2
  /\ (session !! "username" = None -> (logout session req).2 = session)
  /\ (truthy (session !! "username") = false ->
      (login session req).1 = Redirect "/dashboard" ->
      login (login session req).2 req''
      = (Redirect "/dashboard", (login session req).2)).
Proof.
  split; [|split; [|split]].
  - destruct (login_session session req) as [->|(u & -> & _)]; [done|].
    unfold logout. simpl. apply delete_insert_eq.
  - unfold logout. simpl. apply delete_delete_eq.
  - intros Hn. unfold logout. simpl. by apply delete_id.
  - intros Hs Hr.
    destruct (login_redirect_unauthenticated session req Hs Hr)
      as (u & _ & Hp & ->).
    apply login_authenticated. simpl. rewrite lookup_insert_eq.
    by destruct Hp as [[[= ->] _]|[[= ->] _]].
Qed.

(** *** The JSON endpoint *)





(** *** Decimal texts *)

Lemma ascii_form_cons py c s :
  (N_of_ascii c < 128)%N ->
  ascii_form py (String c s) = N_of_ascii c :: ascii_form py s.
Proof.
  intros Hc. unfold ascii_form, bytes_of. simpl.
  apply N.ltb_lt in Hc as Hc'. rewrite Hc'. simpl.
  unfold to_ascii_decimal at 1. by rewrite Hc'.
Qed.

Lemma pretty_N_char_code m :
  (m < 10)%N -> N_of_ascii (pretty_N_char m) = (48 + m)%N.
Proof.
  intros Hm.
  assert (m = 0 \/ m = 1 \/ m = 2 \/ m = 3 \/ m = 4 \/ m = 5 \/ m = 6
          \/ m = 7 \/ m = 8 \/ m = 9)%N as H by lia.
  repeat destruct H as [->|H]; try subst m; reflexivity.
Qed.

Lemma ascii_form_digit py m s :
  (m < 10)%N ->
  ascii_form py (String (pretty_N_char m) s) = (48 + m)%N :: ascii_form py s.
Proof.
  intros Hm. rewrite ascii_form_cons; rewrite pretty_N_char_code by done;
    [done | lia].
Qed.

Lemma scan_digits_digit acc count m l :
  (m < 10)%N ->
  scan_digits false acc count ((48 + m)%N :: l)
  = scan_digits false (10 * acc + Z.of_N m) (S count) l.
Proof.
  intros Hm. simpl. unfold is_digit.
  rewrite (proj2 (N.leb_le 48 (48 + m))), (proj2 (N.leb_le (48 + m) 57)) by lia.
  simpl. by replace (48 + m - 48)%N with m by lia.
Qed.

Lemma scan_digits_count prev acc count l v k rest :
  scan_digits prev acc count l = Some (v, k, rest) -> (count <= k)%nat.
Proof.
  revert prev acc count. induction l as [|c l IH]; intros prev acc count; simpl.
  - destruct prev; [discriminate|]. intros [= _ <- _]. lia.
  - repeat case_match; try discriminate.
    + intros Hrec%IH. lia.
    + intros Hrec%IH. lia.
    + intros [= _ <- _]. lia.
Qed.

(** Reading back the digits that [pretty_N_go] writes in front of [s]. *)
Lemma scan_digits_pretty_N_go py x :
  exists k : nat,
    (x = 0%N -> k = 0%nat)
    /\ ((0 < x)%N -> (0 < k)%nat /\ 10 ^ (Z.of_nat k - 1) <= Z.of_N x)
    /\ Z.of_N x < 10 ^ Z.of_nat k
    /\ forall s acc count,
        scan_digits false acc count (ascii_form py (pretty_N_go x s))
        = scan_digits false (acc * 10 ^ Z.of_nat k + Z.of_N x)
            (count + k) (ascii_form py s).
Proof.
  induction (N.lt_wf_0 x) as [x _ IH].
  destruct (decide (x = 0%N)) as [->|Hx].
  - exists 0%nat. split; [done|]. split; [lia|]. split; [done|].
    intros s acc count.
    rewrite pretty_N_go_0, Nat.add_0_r. f_equal. simpl. lia.
  - destruct (IH (x `div` 10)%N) as (k & Hk0 & Hk & Hub & Hscan).
    { apply N.div_lt; lia. }
    exists (S k). split; [lia|]. split; [|split].
    2:{ rewrite Nat2Z.inj_succ, Z.pow_succ_r by lia.
        pose proof (N.div_mod x 10). pose proof (N.mod_lt x 10).
        rewrite N2Z.inj_div in Hub. change (Z.of_N 10) with 10 in Hub.
        pose proof (Z.div_mod (Z.of_N x) 10).
        pose proof (Z.mod_pos_bound (Z.of_N x) 10). lia. }
    + intros _. split; [lia|].
      replace (Z.of_nat (S k) - 1) with (Z.of_nat k) by lia.
      destruct (N.eq_0_gt_0_cases (x `div` 10)) as [Hz|Hd].
      * rewrite (Hk0 Hz). change (Z.of_nat 0) with 0.
        rewrite Z.pow_0_r. lia.
      * destruct (Hk Hd) as [Hkpos Hle].
        replace (Z.of_nat k) with (Z.of_nat k - 1 + 1) by lia.
        rewrite Z.pow_add_r by lia.
        pose proof (N.Div0.mul_div_le x 10). lia.
    + intros s acc count. rewrite pretty_N_go_step by lia.
      rewrite Hscan, ascii_form_digit by (apply N.mod_lt; lia).
      rewrite scan_digits_digit by (apply N.mod_lt; lia).
      f_equal; [|lia].
      rewrite Nat2Z.inj_succ, Z.pow_succ_r by lia.
      pose proof (N.div_mod x 10). lia.
Qed.

Lemma pretty_N_go_head py x s :
  (0 < x)%N ->
  exists m rest, (m < 10)%N
    /\ ascii_form py (pretty_N_go x s) = (48 + m)%N :: rest.
Proof.
  revert s. induction (N.lt_wf_0 x) as [x _ IH]. intros s Hx.
  rewrite pretty_N_go_step by done.
  destruct (decide (x `div` 10 = 0)%N) as [->|Hd].
  - rewrite pretty_N_go_0. eexists _, _. split; [|apply ascii_form_digit];
      apply N.mod_lt; lia.
  - apply IH; [apply N.div_lt; lia | by apply N.neq_0_lt_0].
Qed.

(** The part of [int_of_str] that follows the passage to ASCII, on digits
    with or without a minus sign in front. *)
Lemma int_of_str_digits py m rest v k s :
  (m < 10)%N ->
  scan_digits false 0 0 ((48 + m)%N :: rest) = Some (v, k, []) ->
  (ascii_form py s = (48 + m)%N :: rest ->
   int_of_str py s = if too_many_digits py k then None else Some v)
  /\ (ascii_form py s = 45%N :: (48 + m)%N :: rest ->
      int_of_str py s = if too_many_digits py k then None else Some (- v)).
Proof.
  intros Hm Hscan.
  assert (k <> 0%nat) as Hk.
  { rewrite scan_digits_digit in Hscan by done.
    apply scan_digits_count in Hscan. lia. }
  assert (m = 0 \/ m = 1 \/ m = 2 \/ m = 3 \/ m = 4 \/ m = 5 \/ m = 6
          \/ m = 7 \/ m = 8 \/ m = 9)%N as H by lia.
  split; intros Hs; unfold int_of_str; fold (ascii_form py s); rewrite Hs;
    repeat destruct H as [->|H]; try subst m.
  all: match goal with
       | |- context [(48 + ?n)%N] =>
           let c := eval vm_compute in (48 + n)%N in
           change (48 + n)%N with c in *
       end.
  all: match goal with
       | |- context [skip_spaces ?l] => change (skip_spaces l) with l
       end.
  all: cbv beta iota zeta.
  all: rewrite Hscan, (bool_decide_eq_false_2 (k = 0%nat)) by done.
  all: destruct (too_many_digits py k); [done|].
  all: simpl skip_spaces; cbv iota; f_equal; lia.
Qed.

(** [int] of the decimal text of an integer, by the number [k] of its
    digits. *)
Lemma int_of_str_str_of_int_digits py n :
  n <> 0 ->
  exists k : nat,
    10 ^ (Z.of_nat k - 1) <= Z.abs n < 10 ^ Z.of_nat k
    /\ int_of_str py (str_of_int n)
       = if too_many_digits py k then None else Some n.
Proof.
  intros Hn.
  assert (exists x, (0 < x)%N /\ Z.of_N x = Z.abs n
            /\ (str_of_int n = pretty_N_go x ""
                /\ 0 < n
                \/ str_of_int n = String "-" (pretty_N_go x "") /\ n < 0))
    as (x & Hx & Hxn & Hstr).
  { destruct n as [|p|p]; [done|..]; exists (N.pos p);
      (split; [lia|]); (split; [done|]); [left|right]; split; try lia;
      unfold str_of_int, pretty, pretty_Z, pretty, pretty_positive, pretty,
        pretty_N; by rewrite decide_False by done. }
  destruct (scan_digits_pretty_N_go py x) as (k & _ & Hk & Hub & Hscan).
  destruct (Hk Hx) as [_ Hlb].
  destruct (pretty_N_go_head py x "" Hx) as (m & rest & Hm & Hhead).
  specialize (Hscan "" 0 0%nat). rewrite Hhead in Hscan.
  change (ascii_form py "") with (@nil N) in Hscan.
  exists k. split; [lia|].
  destruct (int_of_str_digits py m rest (Z.of_N x) k (str_of_int n) Hm)
    as [Hpos Hneg].
  { rewrite Hscan. cbn [scan_digits]. by rewrite Z.mul_0_l, Z.add_0_l. }
  destruct Hstr as [[Hs Hsign]|[Hs Hsign]].
  - rewrite Hpos by (by rewrite Hs). case_match; [done|]. f_equal. lia.
  - rewrite Hneg.
    + case_match; [done|]. f_equal. lia.
    + rewrite Hs, ascii_form_cons by (vm_compute; reflexivity).
      by rewrite Hhead.
Qed.

Lemma int_of_str_str_of_int py n :
  Z.abs n < 10 ^ Z.max 640 (Z.of_nat (max_str_digits py))
  \/ max_str_digits py = 0%nat ->
  int_of_str py (str_of_int n) = Some n.
Proof.
  intros Hlim. destruct (decide (n = 0)) as [->|Hn]; [by vm_compute|].
  destruct (int_of_str_str_of_int_digits py n Hn) as (k & [Hlb Hub] & ->).
  assert (too_many_digits py k = false) as ->; [|done].
  unfold too_many_digits. destruct Hlim as [Hlim|Hlim].
  - assert (Z.of_nat k - 1 < Z.max 640 (Z.of_nat (max_str_digits py))).
    { apply (Z.pow_lt_mono_r_iff 10); lia. }
    destruct (decide (k <= 640)%nat).
    + by rewrite bool_decide_eq_false_2 by lia.
    + rewrite (bool_decide_eq_false_2 (max_str_digits py < k)%nat) by lia.
      by rewrite andb_false_r.
  - rewrite (bool_decide_eq_false_2 (0 < max_str_digits py)%nat) by lia.
    by rewrite andb_false_r.
Qed.


Lemma dashboard_rendered_fields py session req :
  truthy (session !! "username") = true -> method req = "POST" ->
  rendered_num_videos (dashboard py session req).1
  = Some (Z.max 1 (Z.min (form_int py req "num_videos" "1" 1) 10))
  /\ rendered_duration (dashboard py session req).1
     = Some (Z.max 2 (Z.min (form_int py req "duration" "6" 6) 30)).
Proof.
  intros Hs Hm.
  by destruct (dashboard_post py session req Hs Hm) as (storyboards & _ & ->).
Qed.

(** X6.  Numbers come back as they were written.  [int] of the decimal
    text of an integer is that integer, as long as the text has no more
    digits than the interpreter allows (640 or its limit, whichever is
    larger; any number when the limit is off); so an authenticated POST
    whose [num_videos] and [duration] fields are the decimal texts of [n]
    and [d] shows [n] clamped to [[1, 10]] and [d] clamped to [[2, 30]]. *)
Theorem decimal_fields_round_trip (py : interpreter)
    (session : gmap string string) (req : request) (n d : Z) :
  truthy (session !! "username") = true -> method req = "POST" ->
  dict_get "num_videos" (form req) = Some (str_of_int n) ->
  dict_get "duration" (form req) = Some (str_of_int d) ->
  (Z.abs n < 10 ^ Z.max 640 (Z.of_nat (max_str_digits py))
   /\ Z.abs d < 10 ^ Z.max 640 (Z.of_nat (max_str_digits py)))
  \/ max_str_digits py = 0%nat ->
  int_of_str py (str_of_int n) = Some n
  /\ rendered_num_videos (dashboard py session req).1
     = Some (Z.max 1 (Z.min n 10))
  /\ rendered_duration (dashboard py session req).1
     = Some (Z.max 2 (Z.min d 30)).
Proof.
  intros Hs Hm Hn Hd Hlim.
  assert (int_of_str py (str_of_int n) = Some n
          /\ int_of_str py (str_of_int d) = Some d) as [Hin Hid].
  { split; apply int_of_str_str_of_int; tauto. }
  destruct (dashboard_rendered_fields py session req Hs Hm) as [-> ->].
  unfold form_int. rewrite Hn, Hd. simpl. by rewrite Hin, Hid.
Qed.

Lemma decimal_fields_round_trip_witness :
  rendered_num_videos
    (dashboard example_interpreter {["username" := "demo"]}
       (post [("num_videos", str_of_int 7); ("duration", str_of_int (-40))])).1
  = Some 7
  /\ rendered_duration
       (dashboard example_interpreter {["username" := "demo"]}
          (post [("num_videos", str_of_int 7);
                 ("duration", str_of_int (-40))])).1
     = Some 2.
Proof.
  apply (decimal_fields_round_trip example_interpreter {["username" := "demo"]}
           (post [("num_videos", str_of_int 7); ("duration", str_of_int (-40))])
           7 (-40)); try reflexivity.
  left. split; reflexivity.
Defined.



(** *** What the generated texts determine *)

Lemma append_length (a b : string) :
  String.length (a +:+ b) = (String.length a + String.length b)%nat.
Proof. induction a as [|c a IH]; simpl; congruence. Qed.

Lemma append_inj_l (a b t : string) : a +:+ t = b +:+ t -> a = b.
Proof.
  revert b. induction a as [|c a IH]; intros [|c' b] H; simpl in H.
  - reflexivity.
  - apply (f_equal String.length) in H. simpl in H.
    rewrite append_length in H. lia.
  - apply (f_equal String.length) in H. simpl in H.
    rewrite append_length in H. lia.
  - injection H as -> H. f_equal. by apply IH.
Qed.

Lemma append_inj_r (t a b : string) : t +:+ a = t +:+ b -> a = b.
Proof. induction t as [|c t IH]; simpl; [done|]. intros [= H]. by apply IH. Qed.

Lemma generate_directions_inj p q :
  generate_directions p = generate_directions q -> p = q.
Proof.
  unfold generate_directions. intros [= H _ _]. by apply append_inj_l in H.
Qed.

Lemma build_scenes_inj py py' p q seg seg' adjective scenes :
  build_scenes py p seg adjective = Some scenes ->
  build_scenes py' q seg' adjective = Some scenes ->
  p = q /\ seg = seg'.
Proof.
  unfold build_scenes.
  destruct (format_int py seg) as [s|] eqn:Hf; [|discriminate].
  destruct (format_int py' seg') as [s'|] eqn:Hf'; [|discriminate].
  apply format_int_Some in Hf as ->. apply format_int_Some in Hf' as ->.
  simpl. intros [= <-] [= Hd Hp _].
  apply append_inj_l in Hp as ->. split; [done|].
  apply append_inj_l in Hd. by apply (inj pretty) in Hd.
Qed.

(** X8.  The storyboards that are returned determine exactly the product
    and the segment length: another call returns the same storyboards if
    and only if its product is the same and its duration gives the same
    [max(1, duration // 3)].  So the number of videos never matters, every
    duration below 6 gives the storyboards of 1-second scenes, and the
    three scenes together are longer than the video exactly when the
    duration is below 3. *)
Theorem generate_storyboards_determines (py : interpreter) (p q : string)
    (n n' d d' : Z) :
  (d < 6 ->
   exists sb, generate_storyboards py p n d = Some sb
     /\ generate_storyboards py p n' 3 = Some sb)
  /\ (forall sb,
       generate_storyboards py p n d = Some sb ->
       (generate_storyboards py q n' d' = Some sb
        <-> p = q /\ Z.max 1 (d / 3) = Z.max 1 (d' / 3))
       /\ (forall direction i text,
            scene_text sb direction i "description" = Some text ->
            exists seg, Contains ("(" +:+ str_of_int seg +:+ "s)") text
              /\ 1 <= seg /\ (d < 3 <-> d < 3 * seg))).
Proof.
  split.
  - intros Hd.
    destruct (generate_storyboards_returns py p n d) as [sb Hsb].
    { left. assert (6 < 3 * 10 ^ 640) by (by vm_compute). lia. }
    exists sb. split; [exact Hsb|]. rewrite <- Hsb.
    unfold generate_storyboards.
    replace (Z.max 1 (d / 3)) with (Z.max 1 (3 / 3)); [done|].
    change (3 / 3) with 1.
    assert (d / 3 < 2) by (apply Z.div_lt_upper_bound; lia). lia.
  - intros sb Hsb. split; [split|].
    + intros Hsb'.
      destruct (generate_storyboards_Some _ _ _ _ _ Hsb)
        as (safe & i1 & e1 & -> & Hs & _).
      destruct (generate_storyboards_Some _ _ _ _ _ Hsb')
        as (safe' & i2 & e2 & [= <- _ _] & Hs' & _).
      by apply (build_scenes_inj _ _ _ _ _ _ _ _ Hs Hs').
    + intros [<- H]. rewrite <- Hsb. unfold generate_storyboards.
      by rewrite H.
    + intros direction i text H. exists (Z.max 1 (d / 3)).
      split; [|split; [lia|]].
      * apply scene_text_inv in H as (scenes & Hs & H).
        destruct (generate_storyboards_get _ _ _ _ _ _ _ Hsb Hs)
          as (adjective & Hb & _).
        unfold build_scenes in Hb.
        destruct (format_int py (Z.max 1 (d / 3))) as [s|] eqn:Hf;
          [|discriminate].
        apply format_int_Some in Hf as ->. simpl in Hb. injection Hb as <-.
        destruct i as [|[|[|i]]]; simpl in H; [| | |discriminate];
          injection H as <-.
        -- exists ("Scene" +:+ nbsp +:+ "1 "),
             (": Introduce " +:+ p +:+ " in a " +:+ adjective +:+
              " way, highlighting its main value proposition.").
           simpl. by rewrite append_assoc.
        -- exists ("Scene" +:+ nbsp +:+ "2 "),
             (": Expand on how " +:+ p +:+
              " benefits the target audience, incorporating a " +:+
              adjective +:+ " visual metaphor.").
           simpl. by rewrite append_assoc.
        -- exists ("Scene" +:+ nbsp +:+ "3 "),
             (": Conclude by motivating viewers to act, leaving them with a memorable {adjective} impression of {product}.").
           simpl. by rewrite append_assoc.
      * pose proof (Z.mul_div_le d 3). pose proof (Z.mul_succ_div_gt d 3).
        lia.
Qed.

(** X9.  The directions determine the product: two products with the same
    three paragraphs are the same product. *)
Theorem generate_directions_determines (p q : string) :
  generate_directions p = generate_directions q <-> p = q.
Proof. split; [apply generate_directions_inj | by intros ->]. Qed.

(** *** The disabled block: what a caller gets *)

Lemma value_is_str_true v s : value_is_str v s = true -> v = VStr s.
Proof.
  destruct v; simpl; try discriminate. by intros ->%String.eqb_eq.
Qed.

Lemma poll_once_result task_id reply d :
  poll_once task_id reply = Some (inr d) ->
  dict_get "task_id" d = Some task_id
  /\ exists url, dict_get "video_url" d = Some url
       /\ (url <> VNone -> reports_success reply).
Proof.
  unfold poll_once. destruct reply as [[| | | | | |data]|]; try discriminate.
  destruct (dict_get "task" data) as [[| | | | | |task]|] eqn:Ht; simpl;
    try discriminate.
  destruct (value_is_str _ "TASK_STATUS_SUCCEED") eqn:Hs.
  - destruct (first_video_url _) as [e|url]; [discriminate|].
    intros [= <-]. split; [done|]. exists url. split; [done|].
    intros _. exists data, task. repeat split; [done|].
    apply value_is_str_true in Hs.
    by destruct (dict_get "status" task) as [v|]; simpl in Hs; subst.
  - destruct (value_is_str _ "TASK_STATUS_FAILED"); [|discriminate].
    intros [= <-]. split; [done|]. exists VNone. by split.
Qed.

Lemma poll_result poll_reply headers task_id attempts i :
  (sleep_total (poll poll_reply headers task_id attempts i).1
     <= attempts)%nat
  /\ forall d,
      (poll poll_reply headers task_id attempts i).2 = inr d ->
      dict_get "task_id" d = Some task_id
      /\ exists url, dict_get "video_url" d = Some url
           /\ (url <> VNone ->
               exists j, (i <= j < i + attempts)%nat
                 /\ reports_success (poll_reply j)).
Proof.
  revert i. induction attempts as [|attempts IH]; intros i; simpl.
  - split; [lia|]. intros d [= <-]. split; [done|]. exists VNone. by split.
  - destruct (poll_once task_id (poll_reply i)) as [r|] eqn:Hr; simpl.
    + split; [lia|]. intros d ->.
      destruct (poll_once_result _ _ _ Hr) as (Hid & url & Hurl & Hs).
      split; [done|]. exists url. split; [done|].
      intros Hn. exists i. split; [lia|auto].
    + destruct (IH (S i)) as [Hsl Hd].
      destruct (poll poll_reply headers task_id attempts (S i))
        as [events r]. simpl in *. split; [lia|].
      intros d Hrd. destruct (Hd d Hrd) as (Hid & url & Hurl & Hs).
      split; [done|]. exists url. split; [done|].
      intros Hn. destruct (Hs Hn) as (j & Hj & Hsucc).
      exists j. split; [lia|done].
Qed.

(** X10.  What a caller of the disabled block gets once it is enabled and a
    key is configured.  A call never sleeps more than 60 seconds in all.
    When it returns a result, the creation request was answered with a task
    identifier, the result carries that identifier under [task_id] and has
    a [video_url] entry, and that entry is a URL only if one of the at most
    60 status answers reported [TASK_STATUS_SUCCEED]. *)
Theorem call_hailuo_api_enabled_result (environ : gmap string string)
    (post_reply : option value) (poll_reply : nat -> option value)
    (prompt : value) (duration : Z) (image end_image : option string)
    (resolution : string) :
  truthy (HAILUO_API_KEY environ) = true ->
  (sleep_total
     (call_hailuo_api_enabled environ post_reply poll_reply prompt duration
        image end_image resolution).1 <= 60)%nat
  /\ forall d,
      (call_hailuo_api_enabled environ post_reply poll_reply prompt duration
         image end_image resolution).2 = inr d ->
      exists response task_id url,
        post_reply = Some (VDict response)
        /\ dict_get "task_id" response = Some task_id
        /\ truthy_value task_id = true
        /\ dict_get "task_id" d = Some task_id
        /\ dict_get "video_url" d = Some url
        /\ (url <> VNone ->
            exists j, (j < 60)%nat /\ reports_success (poll_reply j)).
Proof.
  intros Hk. unfold call_hailuo_api_enabled. rewrite Hk. simpl negb.
  cbv iota zeta.
  destruct post_reply as [[| | | | | |response]|];
    try (split; [simpl; lia | discriminate]).
  destruct (dict_get "task_id" response) as [task_id|] eqn:Hid; simpl default;
    [|split; [simpl; lia | discriminate]].
  destruct (truthy_value task_id) eqn:Ht; simpl negb; cbv iota;
    [|split; [simpl; lia | discriminate]].
  match goal with
  | |- context [poll ?p ?h ?t 60%nat 0%nat] =>
      pose proof (poll_result p h t 60 0) as [Hsl Hd];
        destruct (poll p h t 60%nat 0%nat) as [events r]
  end.
  simpl in *. split; [exact Hsl|].
  intros d Hrd. destruct (Hd d Hrd) as (Hid' & url & Hurl & Hs).
  exists response, task_id, url. repeat split; try done.
  intros Hn. destruct (Hs Hn) as (j & Hj & Hsucc). exists j. split; [lia|done].
Qed.

Lemma call_hailuo_api_enabled_result_witness :
  (sleep_total
     (call_hailuo_api_enabled {["HAILUO_API_KEY" := "sk-test"]}
        accepting_service (service_after 100)
        (VStr "a kettle at dawn") 6 None None "768P").1 <= 60)%nat.
Proof.
  apply (call_hailuo_api_enabled_result {["HAILUO_API_KEY" := "sk-test"]}
           accepting_service (service_after 100)
           (VStr "a kettle at dawn") 6 None None "768P").
  reflexivity.
Defined.

(** *** The product that is shown *)

Lemma string_of_bytes_of s : string_of_bytes (bytes_of s) = s.
Proof.
  unfold string_of_bytes, bytes_of.
  rewrite <- (string_of_list_ascii_of_string s) at 2.
  induction (list_ascii_of_string s) as [|c l IH]; simpl; [done|].
  rewrite ascii_N_embedding. f_equal. exact IH.
Qed.

Lemma bytes_of_string_of l :
  Forall (fun b => (b < 256)%N) l -> bytes_of (string_of_bytes l) = l.
Proof.
  unfold string_of_bytes, bytes_of.
  rewrite list_ascii_of_string_of_list_ascii.
  induction 1 as [|b l Hb _ IH]; simpl; [done|].
  rewrite N_ascii_embedding by done. f_equal. exact IH.
Qed.

Lemma bytes_of_bounded s : Forall (fun b => (b < 256)%N) (bytes_of s).
Proof.
  unfold bytes_of. apply Forall_fmap, Forall_forall. intros c _.
  apply N_ascii_bounded.
Qed.

Lemma string_of_bytes_app l1 l2 :
  string_of_bytes (l1 ++ l2) = string_of_bytes l1 +:+ string_of_bytes l2.
Proof.
  unfold string_of_bytes. rewrite fmap_app.
  induction (ascii_of_N <$> l1) as [|c l IH]; simpl; congruence.
Qed.

Lemma drop_prefix_Some p l l' : drop_prefix p l = Some l' -> l = p ++ l'.
Proof.
  revert l. induction p as [|a p IH]; intros [|b l]; simpl;
    try discriminate; try (by intros [= ->]).
  destruct (a =? b)%N eqn:Hab; [|discriminate].
  apply N.eqb_eq in Hab as ->. intros ->%IH. done.
Qed.

Lemma drop_prefix_app p l : drop_prefix p (p ++ l) = Some l.
Proof. induction p as [|a p IH]; simpl; [done|]. by rewrite N.eqb_refl. Qed.

Lemma drop_prefix_app_r p l l' x :
  drop_prefix p l = Some l' -> drop_prefix p (l ++ x) = Some (l' ++ x).
Proof.
  intros ->%drop_prefix_Some. by rewrite <- app_assoc, drop_prefix_app.
Qed.

Lemma drop_one_Some encs l l' :
  drop_one encs l = Some l' -> exists e, e ∈ encs /\ l = e ++ l'.
Proof.
  induction encs as [|e encs IH]; simpl; [discriminate|].
  destruct (drop_prefix e l) as [l''|] eqn:He.
  - intros [= ->]. exists e. split; [left|by apply drop_prefix_Some].
  - intros (e' & He' & ->)%IH. exists e'. split; [by right|done].
Qed.

Lemma drop_one_app_r encs l l' x :
  drop_one encs l = Some l' -> is_Some (drop_one encs (l ++ x)).
Proof.
  induction encs as [|e encs IH]; simpl; [discriminate|].
  destruct (drop_prefix e l) as [l''|] eqn:He.
  - intros _. by rewrite (drop_prefix_app_r _ _ _ x He).
  - intros H. destruct (drop_prefix e (l ++ x)); [done|by apply IH].
Qed.

(** [drop_while] removes a prefix, and with enough fuel nothing that
    [drop_one] would remove is left. *)
Lemma drop_while_prefix fuel encs l :
  exists pre, l = pre ++ drop_while fuel encs l.
Proof.
  revert l. induction fuel as [|fuel IH]; intros l; simpl; [by exists []|].
  destruct (drop_one encs l) as [l'|] eqn:Hd; [|by exists []].
  apply drop_one_Some in Hd as (e & _ & ->).
  destruct (IH l') as [pre Hpre]. exists (e ++ pre).
  by rewrite <- app_assoc, <- Hpre.
Qed.

Lemma drop_while_done fuel encs l :
  Forall (fun e => e <> []) encs -> (length l <= fuel)%nat ->
  drop_one encs (drop_while fuel encs l) = None.
Proof.
  intros Hne. revert l. induction fuel as [|fuel IH]; intros l Hl; simpl.
  - destruct l; [|simpl in Hl; lia].
    clear Hl. induction Hne as [|e encs He _ IHe]; simpl; [done|].
    by destruct e.
  - destruct (drop_one encs l) as [l'|] eqn:Hd; [|done].
    apply IH. apply drop_one_Some in Hd as (e & He & ->).
    rewrite Forall_forall in Hne. specialize (Hne e He).
    destruct e; [done|]. rewrite length_app in Hl. simpl in Hl. lia.
Qed.

Lemma drop_while_id fuel encs l :
  drop_one encs l = None -> drop_while fuel encs l = l.
Proof. intros H. destruct fuel; simpl; [done|]. by rewrite H. Qed.

Lemma utf8_encodings_nonempty (f : list N -> list N) ws :
  (forall l, l <> [] -> f l <> []) ->
  Forall (fun e => e <> []) ((fun cp => f (utf8 cp)) <$> ws).
Proof.
  intros Hf. apply Forall_fmap, Forall_forall. intros cp _. simpl.
  apply Hf. unfold utf8. by repeat case_match.
Qed.

Lemma rev_nonempty (l : list N) : l <> [] -> rev l <> [].
Proof.
  destruct l; [done|]. intros _ H. apply (f_equal length) in H.
  rewrite length_rev in H. done.
Qed.

(** What [strip] leaves: a part of the bytes, with no white space at its
    start or at its end. *)
Lemma strip_bytes l :
  exists pre post,
    l = pre ++ rstrip_bytes unicode_whitespace
                 (lstrip_bytes unicode_whitespace l) ++ post
    /\ lstrip_bytes unicode_whitespace
         (rstrip_bytes unicode_whitespace
            (lstrip_bytes unicode_whitespace l))
       = rstrip_bytes unicode_whitespace (lstrip_bytes unicode_whitespace l)
    /\ rstrip_bytes unicode_whitespace
         (rstrip_bytes unicode_whitespace
            (lstrip_bytes unicode_whitespace l))
       = rstrip_bytes unicode_whitespace (lstrip_bytes unicode_whitespace l).
Proof.
  set (encs := utf8 <$> unicode_whitespace).
  set (rencs := (fun cp => rev (utf8 cp)) <$> unicode_whitespace).
  assert (Forall (fun e => e <> []) encs) as Hencs.
  { apply (utf8_encodings_nonempty (fun l => l)). done. }
  assert (Forall (fun e => e <> []) rencs) as Hrencs.
  { apply (utf8_encodings_nonempty (@rev N)), rev_nonempty. }
  unfold lstrip_bytes, rstrip_bytes. fold encs rencs.
  set (l1 := drop_while (length l) encs l).
  set (r := drop_while (length l1) rencs (rev l1)).
  destruct (drop_while_prefix (length l) encs l) as [pre Hpre].
  destruct (drop_while_prefix (length l1) rencs (rev l1)) as [rpost Hpost].
  fold l1 in Hpre. fold r in Hpost.
  assert (l1 = rev r ++ rev rpost) as Hl1.
  { by rewrite <- rev_app_distr, <- Hpost, rev_involutive. }
  assert (drop_one encs l1 = None) as Hl1done.
  { by apply drop_while_done. }
  assert (drop_one rencs r = None) as Hrdone.
  { apply drop_while_done; [done|]. by rewrite length_rev. }
  assert (drop_one encs (rev r) = None) as Hleft.
  { destruct (drop_one encs (rev r)) as [x|] eqn:Hx; [|done].
    apply (drop_one_app_r _ _ _ (rev rpost)) in Hx as [y Hy].
    rewrite <- Hl1 in Hy. congruence. }
  exists pre, (rev rpost). split; [by rewrite Hpre at 1; rewrite Hl1|].
  split.
  - by apply drop_while_id.
  - rewrite rev_involutive. by rewrite drop_while_id.
Qed.

Lemma strip_spec s :
  Contains (strip s) s /\ strip (strip s) = strip s.
Proof.
  destruct (strip_bytes (bytes_of s)) as (pre & post & Hs & Hl & Hr).
  unfold strip at 1 3. split.
  - exists (string_of_bytes pre), (string_of_bytes post).
    rewrite <- !string_of_bytes_app, <- Hs. by rewrite string_of_bytes_of.
  - unfold strip. rewrite bytes_of_string_of; [by rewrite Hl, Hr|].
    pose proof (bytes_of_bounded s) as Hb. rewrite Hs in Hb.
    by apply Forall_app in Hb as [_ [Hb _]%Forall_app].
Qed.

(** X11.  The product on the results page is a part of the product field
    as it was submitted, with nothing added, and posting it again gives the
    same page: stripping it changes nothing, so that the page of the second
    POST equals the page of the first. *)
Theorem dashboard_product_round_trip (py : interpreter)
    (session : gmap string string) (req : request) :
  truthy (session !! "username") = true -> method req = "POST" ->
  exists product,
    rendered_product (dashboard py session req).1 = Some product
    /\ Contains product (default "" (dict_get "product" (form req)))
    /\ strip product = product
    /\ forall req',
        method req' = "POST" ->
        dict_get "product" (form req') = Some product ->
        dict_get "num_videos" (form req') = dict_get "num_videos" (form req) ->
        dict_get "duration" (form req') = dict_get "duration" (form req) ->
        dashboard py session req' = dashboard py session req.
Proof.
  intros Hs Hm.
  destruct (strip_spec (default "" (dict_get "product" (form req))))
    as [Hc Hi].
  exists (strip (default "" (dict_get "product" (form req)))).
  destruct (dashboard_post py session req Hs Hm) as (storyboards & _ & Hr).
  split; [by rewrite Hr|]. split; [done|]. split; [done|].
  intros req' Hm' Hp Hn Hd. unfold dashboard. rewrite Hs, Hm, Hm'.
  change (String.eqb "POST" "POST") with true. cbv iota beta zeta. simpl negb.
  cbv iota. unfold form_int. rewrite Hp, Hn, Hd.
  change (default "" (Some ?x)) with x. by rewrite Hi.
Qed.

Lemma dashboard_product_round_trip_witness :
  exists product,
    rendered_product
      (dashboard example_interpreter {["username" := "demo"]}
         (post [("product", "  Solar kettle ")])).1 = Some product
    /\ Contains product "  Solar kettle ".
Proof.
  destruct (dashboard_product_round_trip example_interpreter
              {["username" := "demo"]} (post [("product", "  Solar kettle ")]))
    as (product & Hr & Hc & _); [reflexivity..|].
  exists product. split; [exact Hr | exact Hc].
Defined.

(** *** The results page as a whole *)

Lemma generate_directions_contains product k text :
  dict_get k (generate_directions product) = Some text ->
  Contains product text.
Proof.
  unfold generate_directions, dict_get.
  repeat case_match; intros [= <-]; solve_contains.
Qed.

Lemma adjective_names_direction direction adjective :
  (direction, adjective) ∈
    [("safe", "safe and trustworthy");
     ("innovative", "innovative and modern");
     ("experimental", "experimental and artistic")] ->
  Contains direction adjective.
Proof.
  intros H. repeat (apply elem_of_cons in H as [[= -> ->]|H]);
    [by apply contains_spec..|by apply not_elem_of_nil in H].
Qed.

Lemma Contains_trans a b c : Contains a b -> Contains b c -> Contains a c.
Proof.
  intros (p1 & q1 & ->) (p2 & q2 & ->).
  exists (p2 +:+ p1), (q1 +:+ q2). by rewrite !append_assoc.
Qed.

(** X12.  The results page is consistent.  After an authenticated POST the
    page lists the same three directions for the paragraphs and for the
    storyboards; every paragraph and every prompt contains the product as
    the page shows it; every prompt names its direction; and every scene
    description gives a scene length between 1 and 10 seconds, which is a
    third of the duration shown, rounded down, and 1 second for a duration
    of 2. *)
Theorem results_page_consistent (py : interpreter)
    (session : gmap string string) (req : request) :
  truthy (session !! "username") = true -> method req = "POST" ->
  exists product num_videos duration directions storyboards seg,
    dashboard py session req
    = (Render "results.html"
         (ResultsCtx product num_videos duration directions storyboards),
       session)
    /\ keys directions = keys storyboards
    /\ (forall k text, dict_get k directions = Some text ->
         Contains product text)
    /\ (forall direction i text,
         scene_text storyboards direction i "prompt" = Some text ->
         Contains product text /\ Contains direction text)
    /\ 1 <= seg <= 10 /\ seg = Z.max 1 (duration / 3)
    /\ (forall direction i text,
         scene_text storyboards direction i "description" = Some text ->
         Contains (str_of_int seg) text).
Proof.
  intros Hs Hm.
  destruct (dashboard_post py session req Hs Hm) as (storyboards & Hsb & ->).
  revert Hsb.
  set (product := strip (default "" (dict_get "product" (form req)))).
  set (num_videos := Z.max 1 (Z.min (form_int py req "num_videos" "1" 1) 10)).
  set (duration := Z.max 2 (Z.min (form_int py req "duration" "6" 6) 30)).
  intros Hsb.
  exists product, num_videos, duration, (generate_directions product),
    storyboards, (Z.max 1 (duration / 3)).
  split; [done|]. split.
  { apply generate_storyboards_Some in Hsb as (s1 & s2 & s3 & -> & _).
    reflexivity. }
  split; [apply generate_directions_contains|].
  split; [|split; [|split; [done|]]].
  - intros direction i text (scenes & Hd & H)%scene_text_inv.
    destruct (generate_storyboards_get _ _ _ _ _ _ _ Hsb Hd)
      as (adj & Hb & Hadj).
    assert (i < 3)%nat as Hi.
    { apply (build_scenes_length _ _ _ _ _ i Hb).
      destruct (scenes !! i); [eauto | discriminate]. }
    destruct (build_scenes_interpolation _ _ _ _ _ i text Hb Hi) as [Hp _].
    destruct (Hp H) as [Hprod Hadjective]. split; [done|].
    eapply Contains_trans; [by apply adjective_names_direction|done].
  - assert (2 <= duration <= 30) by (unfold duration; lia).
    assert (0 <= duration / 3) by (apply Z.div_pos; lia).
    assert (duration / 3 <= 10) by (apply Z.div_le_upper_bound; lia). lia.
  - intros direction i text. by apply (generate_storyboards_segment _ _ _ _ _ _ _ _ Hsb).
Qed.

Lemma results_page_consistent_witness :
  exists product num_videos duration directions storyboards,
    dashboard example_interpreter {["username" := "admin"]}
      (post [("product", "kettle"); ("duration", "2")])
    = (Render "results.html"
         (ResultsCtx product num_videos duration directions storyboards),
       {["username" := "admin"]})
    /\ keys directions = keys storyboards.
Proof.
  destruct (results_page_consistent example_interpreter
              {["username" := "admin"]}
              (post [("product", "kettle"); ("duration", "2")]))
    as (product & n & d & directions & storyboards & seg & H & Hk & _);
    [reflexivity..|].
  by exists product, n, d, directions, storyboards.
Defined.
